(** * FHIR natural-language query service: a shallow embedding

    Embedding of [part1/fhir_nlp_service.py] (class [FHIRNLPProcessor]):
    the entity extractor, the query builder and the paginated result
    fetcher, followed by the properties established about them.

    Conventions.
    - Python [str] is [string]; [str.lower], [str.split], [\s], [\d] and
      the literals [int(text)] reads are modelled on the ASCII range.
    - Python [int] is [Z]; [str(int)] / [f"{n}"] is stdpp's [pretty];
      [int(text)] is CPython's, with its limit of 4300 digits
      ([sys.get_int_max_str_digits()] at its default).
    - A function that can raise returns a [result]: [Ok] with its value
      or [Raise] with the exception.
    - A [dict] with string keys used as a map is a [gmap string _]; a
      [dict] whose iteration order matters is an association list.
    - The spaCy annotator, the wall clock and the HTTP session are the
      environment: they are passed explicitly to the functions that use
      them. *)

From Stdlib Require Import Ascii String.
From stdpp Require Import gmap strings list fin_maps pretty sorting.

Local Open Scope string_scope.
Set Warnings "-register-all".

(* ===================================================================== *)
(** ** Python string primitives *)
(* ===================================================================== *)

(** [sep.join(l)] *)
Fixpoint join (sep : string) (l : list string) : string :=
  match l with
  | [] => ""
  | [s] => s
  | s :: rest => s +:+ sep +:+ join sep rest
  end.

(** [s.startswith(p)] *)
Fixpoint starts_with (p s : string) : bool :=
  match p, s with
  | EmptyString, _ => true
  | String a p', String b s' => if decide (a = b) then starts_with p' s' else false
  | String _ _, EmptyString => false
  end.

(** [needle in hay] on two strings: substring test. *)
Fixpoint contains (needle hay : string) : bool :=
  starts_with needle hay ||
  match hay with
  | EmptyString => false
  | String _ hay' => contains needle hay'
  end.

(** [c.lower()] on one ASCII character: 'A'..'Z' are moved to 'a'..'z'. *)
Definition lower_ascii (c : ascii) : ascii :=
  let n := nat_of_ascii c in
  if (65 <=? n)%nat && (n <=? 90)%nat then ascii_of_nat (n + 32) else c.

(** [s.lower()] *)
Fixpoint lower (s : string) : string :=
  match s with
  | EmptyString => EmptyString
  | String c s' => String (lower_ascii c) (lower s')
  end.

(** [x in l] for a list of strings. *)
Definition str_in (x : string) (l : list string) : bool :=
  existsb (String.eqb x) l.

(** Truthiness of a [str]. *)
Definition str_truthy (s : string) : bool :=
  match s with EmptyString => false | _ => true end.

(** [any(p in s for p in phrases)] *)
Definition any_in (phrases : list string) (s : string) : bool :=
  existsb (fun p => contains p s) phrases.

(* ===================================================================== *)
(** ** Data model *)
(* ===================================================================== *)

(** One entry of [entities["conditions"]]. *)
Record Condition := mkCondition {
  term : string;
  code : string;
  system : string;
  display : string;
  extraction_method : string
}.

(** The comparison operators an age filter carries next to ["range"]. *)
Inductive Operator := OpGt | OpLt | OpEq.

Definition operator_str (o : Operator) : string :=
  match o with OpGt => ">" | OpLt => "<" | OpEq => "=" end.

(** One entry of [entities["age_filters"]]: either
    [{"operator": op, "value": v, "extraction_method": m}] or
    [{"operator": "range", "min": a, "max": b, "extraction_method": m}]. *)
Inductive AgeFilter :=
| AgeValue (operator : Operator) (value : Z) (method : string)
| AgeRange (range_min range_max : Z) (method : string).

(** One entry of [entities["extracted_numbers"]]. *)
Record NumberInfo := mkNumberInfo {
  value : string;
  numeric_value : option Z;
  context : string;
  position : nat;
  dependencies : list string
}.

(** One entry of [entities["extracted_entities"]]. *)
Record EntityInfo := mkEntityInfo {
  ei_text : string;
  ei_label : string;
  ei_description : option string
}.

(** The dictionary returned by [extract_entities]. *)
Record Entities := mkEntities {
  conditions : list Condition;
  age_filters : list AgeFilter;
  gender : option string;
  intent : string;
  resource_types : list string;
  extracted_numbers : list NumberInfo;
  extracted_entities : list EntityInfo
}.

Inductive ResourceType := PATIENT | CONDITION | OBSERVATION | MEDICATION_REQUEST.

Definition ResourceType_value (r : ResourceType) : string :=
  match r with
  | PATIENT => "Patient"
  | CONDITION => "Condition"
  | OBSERVATION => "Observation"
  | MEDICATION_REQUEST => "MedicationRequest"
  end.

(** The dataclass [FHIRQuery]. *)
Record FHIRQuery := mkFHIRQuery {
  resource_type : ResourceType;
  parameters : gmap string string;
  _include : option (list string);
  _count : option Z
}.

(** The value of [datetime.now()]. *)
Record datetime := mkDatetime {
  year : Z; month : Z; day : Z; hour : Z; minute : Z; second : Z
}.

(* ===================================================================== *)
(** ** Query builder *)
(* ===================================================================== *)

(** [build_fhir_query(self, entities)].  The function has no parameter for
    the reference year: it calls [datetime.now()] where it encodes an age
    filter.  [now] is the value the wall clock gives during the call. *)
Definition build_fhir_query (now : datetime) (entities : Entities) : FHIRQuery :=
  if String.eqb (intent entities) "count" then
    let parameters : gmap string string := ∅ in
    let parameters :=
      match conditions entities with
      | [] => parameters
      | _ :: _ =>
          let condition_codes := map code (conditions entities) in
          <["_has:Condition:subject:code" := join "," condition_codes]> parameters
      end in
    let parameters :=
      match age_filters entities with
      | [] => parameters
      | age_filter :: _ =>
          match age_filter with
          | AgeValue OpGt v _ =>
              let current_year := year now in
              let birth_year := (current_year - v)%Z in
              <["birthdate" := "le" +:+ pretty birth_year +:+ "-12-31"]> parameters
          | AgeValue OpLt v _ =>
              let current_year := year now in
              let birth_year := (current_year - v)%Z in
              <["birthdate" := "ge" +:+ pretty birth_year +:+ "-01-01"]> parameters
          | AgeRange lo hi _ =>
              let current_year := year now in
              let max_birth_year := (current_year - lo)%Z in
              let min_birth_year := (current_year - hi)%Z in
              <["birthdate" := "ge" +:+ pretty min_birth_year +:+ "-01-01&birthdate=le"
                                +:+ pretty max_birth_year +:+ "-12-31"]> parameters
          | AgeValue OpEq _ _ => parameters
          end
      end in
    let parameters :=
      match gender entities with
      | Some g => if str_truthy g then <["gender" := g]> parameters else parameters
      | None => parameters
      end in
    {| resource_type := PATIENT;
       parameters := parameters;
       _include := match conditions entities with
                   | [] => None
                   | _ :: _ => Some ["Condition:subject"]
                   end;
       _count := Some 100%Z |}
  else
    let parameters : gmap string string := ∅ in
    let parameters :=
      match conditions entities with
      | [] => parameters
      | _ :: _ =>
          let condition_codes := map code (conditions entities) in
          <["_has:Condition:subject:code" := join "," condition_codes]> parameters
      end in
    let parameters :=
      match age_filters entities with
      | [] => parameters
      | age_filter :: _ =>
          match age_filter with
          | AgeValue OpGt v _ =>
              let current_year := year now in
              let birth_year := (current_year - v)%Z in
              <["birthdate" := "le" +:+ pretty birth_year +:+ "-12-31"]> parameters
          | AgeValue OpLt v _ =>
              let current_year := year now in
              let birth_year := (current_year - v)%Z in
              <["birthdate" := "ge" +:+ pretty birth_year +:+ "-01-01"]> parameters
          | AgeRange lo hi _ =>
              let current_year := year now in
              let max_birth_year := (current_year - lo)%Z in
              let min_birth_year := (current_year - hi)%Z in
              <["birthdate" := "ge" +:+ pretty min_birth_year +:+ "-01-01&birthdate=le"
                                +:+ pretty max_birth_year +:+ "-12-31"]> parameters
          | AgeValue OpEq _ _ => parameters
          end
      end in
    let parameters :=
      match gender entities with
      | Some g => if str_truthy g then <["gender" := g]> parameters else parameters
      | None => parameters
      end in
    {| resource_type := PATIENT;
       parameters := parameters;
       _include := match conditions entities with
                   | [] => None
                   | _ :: _ => Some ["Condition:subject"]
                   end;
       _count := Some 100%Z |}.

(** [entities] with another intent, all other fields kept. *)
Definition with_intent (i : string) (e : Entities) : Entities :=
  {| conditions := conditions e; age_filters := age_filters e; gender := gender e;
     intent := i; resource_types := resource_types e;
     extracted_numbers := extracted_numbers e;
     extracted_entities := extracted_entities e |}.


(** The [birthdate] parameter the first age filter is encoded as. *)
Definition birthdate_of (reference_year : Z) (f : AgeFilter) : option string :=
  match f with
  | AgeValue OpGt a _ => Some ("le" +:+ pretty (reference_year - a)%Z +:+ "-12-31")
  | AgeValue OpLt a _ => Some ("ge" +:+ pretty (reference_year - a)%Z +:+ "-01-01")
  | AgeValue OpEq _ _ => None
  | AgeRange lo hi _ =>
      Some ("ge" +:+ pretty (reference_year - hi)%Z +:+ "-01-01&birthdate=le"
                 +:+ pretty (reference_year - lo)%Z +:+ "-12-31")
  end.

(* ===================================================================== *)
(** ** Python values and exceptions *)
(* ===================================================================== *)

(** A decoded JSON document, as [response.json()] returns it.  Numbers are
    integers; an object is the list of its members (keys unique). *)
Inductive pyval :=
| PNone
| PBool (b : bool)
| PInt (n : Z)
| PStr (s : string)
| PList (l : list pyval)
| PDict (d : list (string * pyval)).

(** The exceptions the service can meet.  [RequestException] stands for the
    whole [requests.exceptions] hierarchy (connection errors, timeouts,
    [HTTPError] of [raise_for_status], [JSONDecodeError] of [json()]);
    [ValueError] is what [int] raises on a text it does not read. *)
Inductive exn :=
| RequestException (what : string)
| AttributeError
| TypeError
| UnboundLocalError
| ValueError.

(** A computation that returns or raises. *)
Inductive result (A : Type) : Type :=
| Ok (a : A)
| Raise (e : exn).
Arguments Ok {A} a.
Arguments Raise {A} e.

#[global] Instance result_ret : MRet result := fun A a => Ok a.
#[global] Instance result_bind : MBind result := fun A B f c =>
  match c with
  | Ok a => f a
  | Raise e => Raise e
  end.

(** [bool(v)] *)
Definition py_truthy (v : pyval) : bool :=
  match v with
  | PNone => false
  | PBool b => b
  | PInt n => negb (n =? 0)%Z
  | PStr s => str_truthy s
  | PList l => match l with [] => false | _ => true end
  | PDict d => match d with [] => false | _ => true end
  end.

(** [v == s] for a string literal [s]. *)
Definition py_eq_str (v : pyval) (s : string) : bool :=
  match v with
  | PStr t => String.eqb t s
  | _ => false
  end.

(** [d.get(k)] on the members of a dict. *)
Fixpoint dict_get (k : string) (d : list (string * pyval)) : option pyval :=
  match d with
  | [] => None
  | (k', v) :: rest => if String.eqb k' k then Some v else dict_get k rest
  end.

(** [v.get(k, default)]: only a dict has [get]. *)
Definition py_get (v : pyval) (k : string) (default : pyval) : result pyval :=
  match v with
  | PDict d => Ok (from_option id default (dict_get k d))
  | _ => Raise AttributeError
  end.

(** [k in v] for a string literal [k]: key test on a dict, membership on a
    list, substring test on a string, [TypeError] otherwise. *)
Definition py_contains (k : string) (v : pyval) : result bool :=
  match v with
  | PDict d => Ok (bool_decide (is_Some (dict_get k d)))
  | PList l => Ok (existsb (fun x => py_eq_str x k) l)
  | PStr s => Ok (contains k s)
  | _ => Raise TypeError
  end.

(** [for x in v]: the elements of a list, the keys of a dict, the
    characters of a string, [TypeError] otherwise. *)
Definition py_iter (v : pyval) : result (list pyval) :=
  match v with
  | PList l => Ok l
  | PDict d => Ok (map (fun kv => PStr (fst kv)) d)
  | PStr s => Ok (map (fun c => PStr (String c "")) (list_ascii_of_string s))
  | _ => Raise TypeError
  end.

(* ===================================================================== *)
(** ** Result fetcher *)
(* ===================================================================== *)

(** A value of the [params] dictionary handed to [session.get]. *)
Inductive ParamVal :=
| PVStr (s : string)
| PVList (l : list string)
| PVInt (n : Z).

(** One call of [session.get]: the target and, on the first call only, the
    parameter dictionary. *)
Record Request := mkRequest {
  req_url : pyval;
  req_params : option (gmap string ParamVal)
}.

(** What one call of [session.get] meets. *)
Inductive Response :=
| ConnectionFailed
| TimedOut
| HttpResponse (status : Z) (body : option pyval).

(** The dictionary [fetch_real_fhir_data] returns; [res_pages_fetched] and
    [error] are the keys that are not always present. *)
Record FetchResult := mkFetchResult {
  total : pyval;
  resources : list pyval;
  bundle : pyval;
  res_pages_fetched : option Z;
  error : option string
}.

(** [_generate_fallback_results(self, query)] *)
Definition _generate_fallback_results (query : FHIRQuery) : FetchResult :=
  {| total := PInt 0;
     resources := [];
     bundle := PDict [("resourceType", PStr "Bundle"); ("type", PStr "searchset");
                      ("total", PInt 0); ("entry", PList [])];
     res_pages_fetched := None;
     error := Some "Unable to fetch data from FHIR server. This is fallback data." |}.

(** The list comprehension
    [[entry.get("resource", {}) for entry in entries if "resource" in entry]]. *)
Fixpoint page_resources_of (entries : list pyval) : result (list pyval) :=
  match entries with
  | [] => Ok []
  | entry :: rest =>
      b ← py_contains "resource" entry;
      if b : bool then
        r ← py_get entry "resource" (PDict []);
        rs ← page_resources_of rest;
        Ok (r :: rs)
      else page_resources_of rest
  end.

(** The loop of [_get_next_link]. *)
Fixpoint find_next (links : list pyval) : result pyval :=
  match links with
  | [] => Ok PNone
  | link :: rest =>
      rel ← py_get link "relation" PNone;
      if py_eq_str rel "next" then py_get link "url" PNone else find_next rest
  end.

(** [_get_next_link(self, bundle)] *)
Definition _get_next_link (bundle : pyval) : result pyval :=
  links ← py_get bundle "link" (PList []);
  links ← py_iter links;
  find_next links.

(** [params] as the head of [fetch_real_fhir_data] builds it. *)
Fixpoint add_includes (includes : list string) (params : gmap string ParamVal)
  : result (gmap string ParamVal) :=
  match includes with
  | [] => Ok params
  | include :: rest =>
      let params :=
        match params !! "_include" with
        | None => <["_include" := PVList []]> params
        | Some _ => params
        end in
      let params :=
        match params !! "_include" with
        | Some (PVStr s) => <["_include" := PVList [s]]> params
        | _ => params
        end in
      match params !! "_include" with
      | Some (PVList l) => add_includes rest (<["_include" := PVList (l ++ [include])%list]> params)
      | _ => Raise AttributeError
      end
  end.

Definition build_params (query : FHIRQuery) : result (gmap string ParamVal) :=
  let params : gmap string ParamVal := PVStr <$> parameters query in
  params ←
    match _include query with
    | Some (i :: rest) => add_includes (i :: rest) params
    | _ => Ok params
    end;
  match _count query with
  | Some c => if (c =? 0)%Z then Ok params
              else Ok (<["_count" := PVInt (Z.min c 50)]> params)
  | None => Ok params
  end.

(** The local variables of the pagination loop; [fhir_bundle] is [None]
    while the name is unbound, and [log] lists the calls of [session.get]
    made so far, oldest first. *)
Record LoopState := mkLoopState {
  all_resources : list pyval;
  total_count : pyval;
  current_url : pyval;
  current_params : gmap string ParamVal;
  pages_fetched : Z;
  fhir_bundle : option pyval;
  log : list Request
}.

(** How the [while] statement is left: by the [return] of the
    single-resource case, or by its end ([break] or a false condition). *)
Inductive LoopExit :=
| Returned (r : FetchResult)
| Finished (st : LoopState).

(** What one iteration does with the decoded payload, from the test of
    [resourceType] to the call of [_get_next_link]: either the result to
    return at once, or the new [all_resources], [total_count] and
    [next_url]. *)
Definition process_page (st : LoopState) (fhir_bundle' : pyval)
  : result (FetchResult + list pyval * pyval * pyval) :=
  rt ← py_get fhir_bundle' "resourceType" PNone;
  if negb (py_eq_str rt "Bundle") then
    Ok (inl {| total := PInt 1;
               resources := [fhir_bundle'];
               bundle := PDict [("resourceType", PStr "Bundle");
                                ("entry", PList [PDict [("resource", fhir_bundle')]])];
               res_pages_fetched := None;
               error := None |})
  else
    entries ← py_get fhir_bundle' "entry" (PList []);
    entries ← py_iter entries;
    page_resources ← page_resources_of entries;
    has_total ← py_contains "total" fhir_bundle';
    total_count' ←
      (if has_total : bool
       then py_get fhir_bundle' "total" PNone
       else Ok (total_count st));
    next_url ← _get_next_link fhir_bundle';
    Ok (inr ((all_resources st ++ page_resources)%list, total_count', next_url)).

Section Fetcher.

(** [self.fhir_base_url] and the remote side of [self.session]: the
    answer to the [n]-th call of [session.get] (counted from 0). *)
Variable fhir_base_url : string.
Variable http_get : nat -> Request -> Response.

(** [session.get(...)], [raise_for_status()] and [json()]. *)
Definition get_json (n : nat) (req : Request) : result pyval :=
  match http_get n req with
  | ConnectionFailed => Raise (RequestException "ConnectionError")
  | TimedOut => Raise (RequestException "Timeout")
  | HttpResponse status body =>
      if (400 <=? status)%Z && (status <? 600)%Z
      then Raise (RequestException "HTTPError")
      else match body with
           | None => Raise (RequestException "JSONDecodeError")
           | Some v => Ok v
           end
  end.

(** The [while current_url and pages_fetched < max_pages] loop, with the
    calls of [session.get] made when it is left.  [fuel] bounds the
    number of iterations; [None] means it ran out. *)
Fixpoint fetch_loop (max_pages : Z) (fuel : nat) (st : LoopState)
  : option (result LoopExit * list Request) :=
  if py_truthy (current_url st) && (pages_fetched st <? max_pages)%Z then
    match fuel with
    | O => None
    | S fuel' =>
        let req :=
          if (pages_fetched st =? 0)%Z
          then {| req_url := current_url st; req_params := Some (current_params st) |}
          else {| req_url := current_url st; req_params := None |} in
        let log' := (log st ++ [req])%list in
        match get_json (length (log st)) req with
        | Raise e => Some (Raise e, log')
        | Ok fhir_bundle' =>
            match process_page st fhir_bundle' with
            | Raise e => Some (Raise e, log')
            | Ok (inl r) => Some (Ok (Returned r), log')
            | Ok (inr (all_resources', total_count', next_url)) =>
                if py_truthy next_url then
                  fetch_loop max_pages fuel'
                    {| all_resources := all_resources';
                       total_count := total_count';
                       current_url := next_url;
                       current_params := ∅;
                       pages_fetched := pages_fetched st + 1;
                       fhir_bundle := Some fhir_bundle';
                       log := log' |}
                else
                  Some (Ok (Finished
                    {| all_resources := all_resources';
                       total_count := total_count';
                       current_url := current_url st;
                       current_params := current_params st;
                       pages_fetched := pages_fetched st;
                       fhir_bundle := Some fhir_bundle';
                       log := log' |}), log')
            end
        end
    end
  else Some (Ok (Finished st), log st).

(** The state in which the loop is entered. *)
Definition initial_state (url : string) (params : gmap string ParamVal) : LoopState :=
  {| all_resources := []; total_count := PInt 0;
     current_url := PStr url; current_params := params;
     pages_fetched := 0; fhir_bundle := None; log := [] |}.

(** The body of the [try] block. *)
Definition fetch_try (fuel : nat) (query : FHIRQuery) (max_pages : Z)
  : option (result FetchResult * list Request) :=
  let url := fhir_base_url +:+ "/" +:+ ResourceType_value (resource_type query) in
  match build_params query with
  | Raise e => Some (Raise e, [])
  | Ok params =>
      match fetch_loop max_pages fuel (initial_state url params) with
      | None => None
      | Some (Raise e, lg) => Some (Raise e, lg)
      | Some (Ok (Returned r), lg) => Some (Ok r, lg)
      | Some (Ok (Finished st), lg) =>
          match fhir_bundle st with
          | None => Some (Raise UnboundLocalError, lg)
          | Some last_bundle =>
              Some (Ok {| total := if py_truthy (total_count st) then total_count st
                                   else PInt (Z.of_nat (length (all_resources st)));
                          resources := all_resources st;
                          bundle := last_bundle;
                          res_pages_fetched := Some (pages_fetched st + 1)%Z;
                          error := None |}, lg)
          end
      end
  end.

(** [fetch_real_fhir_data(self, query, max_pages)] run with [fuel]
    iterations at its disposal: both [except] clauses answer with the
    fallback result.  The second component lists the calls of
    [session.get] the run made. *)
Definition fetch_with_fuel (fuel : nat) (query : FHIRQuery) (max_pages : Z)
  : option (FetchResult * list Request) :=
  match fetch_try fuel query max_pages with
  | None => None
  | Some (Ok r, lg) => Some (r, lg)
  | Some (Raise (RequestException _), lg) => Some (_generate_fallback_results query, lg)
  | Some (Raise _, lg) => Some (_generate_fallback_results query, lg)
  end.

(** The loop makes at most [max_pages] iterations, so that much fuel is
    all it can use. *)
Definition fetch_real_fhir_data (query : FHIRQuery) (max_pages : Z)
  : option (FetchResult * list Request) :=
  fetch_with_fuel (Z.to_nat max_pages) query max_pages.

(** A response that makes the fetch fail: no connection, a timeout, an
    error status, a body that is not JSON, or a payload that is not a
    JSON object. *)
Definition failing_response (resp : Response) : bool :=
  match resp with
  | ConnectionFailed | TimedOut => true
  | HttpResponse status body =>
      (400 <=? status)%Z && (status <? 600)%Z ||
      match body with
      | Some (PDict _) => false
      | _ => true
      end
  end.

End Fetcher.

(** One unfolding of the pagination loop. *)
Ltac loop_step := cbn [fetch_loop].

(* ===================================================================== *)
(** ** Annotated documents *)
(* ===================================================================== *)

(** A spaCy token: surface text, lemma, part-of-speech tag, the [like_num]
    flag and the texts of its syntactic children.  [token.i] is the index
    of the token in the document. *)
Record Token := mkToken {
  text : string;
  lemma_ : string;
  pos_ : string;
  like_num : bool;
  children : list string
}.

(** A named-entity span of [doc.ents]. *)
Record Span := mkSpan {
  span_text : string;
  label_ : string
}.

(** A spaCy [Doc]: its tokens, the text it was made from, its entities. *)
Record Doc := mkDoc {
  doc_tokens : list Token;
  doc_text : string;
  ents : list Span
}.

(** [[t.lemma_ for t in doc]] *)
Definition doc_lemmas (doc : Doc) : list string := map lemma_ (doc_tokens doc).

(* ===================================================================== *)
(** ** Entity extractor: intent *)
(* ===================================================================== *)

Definition search_verbs : list string :=
  ["show"; "list"; "find"; "get"; "display"; "retrieve"; "fetch"].
Definition count_verbs : list string := ["count"; "number"].
Definition aggregate_verbs : list string := ["average"; "mean"; "median"; "sum"; "total"].

(** The [for token in doc] loop of [_determine_intent_with_spacy]; [None]
    when the loop ends without [return]. *)
Fixpoint intent_scan (doc : Doc) (tokens : list Token) : option string :=
  match tokens with
  | [] => None
  | token :: rest =>
      let lemma := lemma_ token in
      if String.eqb (pos_ token) "VERB"
         || str_in lemma (search_verbs ++ count_verbs ++ aggregate_verbs)%list
      then
        if str_in lemma search_verbs then Some "search"
        else if str_in lemma count_verbs || str_in "many" (doc_lemmas doc) then Some "count"
        else if str_in lemma aggregate_verbs then Some "aggregate"
        else intent_scan doc rest
      else intent_scan doc rest
  end.

(** The fallback on fixed phrases of the text. *)
Definition intent_of_phrases (query_text : string) : string :=
  if any_in ["how many"; "number of"] query_text then "count"
  else if any_in ["average"; "mean"; "median"] query_text then "aggregate"
  else "search".

(** [_determine_intent_with_spacy(self, doc)] *)
Definition _determine_intent_with_spacy (doc : Doc) : string :=
  match intent_scan doc (doc_tokens doc) with
  | Some i => i
  | None => intent_of_phrases (doc_text doc)
  end.

(** The intent as the specification words it: the class of a lemma, with
    priority search, count, aggregate ... *)
Definition keyword_class (lemma : string) : option string :=
  if str_in lemma search_verbs then Some "search"
  else if str_in lemma count_verbs then Some "count"
  else if str_in lemma aggregate_verbs then Some "aggregate"
  else None.

(** ... the class of the first token, in token order, whose lemma is in
    one of the three sets ... *)
Fixpoint first_keyword_class (tokens : list Token) : option string :=
  match tokens with
  | [] => None
  | token :: rest =>
      match keyword_class (lemma_ token) with
      | Some i => Some i
      | None => first_keyword_class rest
      end
  end.

(** ... and the phrase fallback when no token has such a lemma. *)
Definition intent_spec (doc : Doc) : string :=
  match first_keyword_class (doc_tokens doc) with
  | Some i => i
  | None => intent_of_phrases (doc_text doc)
  end.

(** What the code does in a document that has a token of lemma "many": the
    first token that is tagged VERB or has a keyword lemma decides, search
    for a search verb and count for anything else. *)
Fixpoint first_verb_or_keyword (tokens : list Token) : option string :=
  match tokens with
  | [] => None
  | token :: rest =>
      if String.eqb (pos_ token) "VERB" || bool_decide (is_Some (keyword_class (lemma_ token)))
      then Some (if str_in (lemma_ token) search_verbs then "search" else "count")
      else first_verb_or_keyword rest
  end.

Definition intent_with_many (doc : Doc) : string :=
  match first_verb_or_keyword (doc_tokens doc) with
  | Some i => i
  | None => intent_of_phrases (doc_text doc)
  end.

(* ===================================================================== *)
(** ** Entity extractor: numbers *)
(* ===================================================================== *)

(** Python's whitespace on the ASCII range, which the regex class [\s]
    matches: tab to carriage return, the four separators 28 to 31, and the
    space. *)
Definition py_isspace (c : ascii) : bool :=
  let n := nat_of_ascii c in
  ((9 <=? n)%nat && (n <=? 13)%nat) || ((28 <=? n)%nat && (n <=? 32)%nat).

(** The whitespace [int] skips round a literal of an ASCII text: tab to
    carriage return and the space.  The separators 28 to 31 are not among
    them. *)
Definition int_isspace (c : ascii) : bool :=
  let n := nat_of_ascii c in
  ((9 <=? n)%nat && (n <=? 13)%nat) || (n =? 32)%nat.

(** The value of an ASCII digit, the regex class [\d]. *)
Definition digit_val (c : ascii) : option Z :=
  let n := nat_of_ascii c in
  if (48 <=? n)%nat && (n <=? 57)%nat then Some (Z.of_nat (n - 48)) else None.

(** What is left of [s] after its leading whitespace, for the regex class
    [\s]. *)
Fixpoint lstrip (s : string) : string :=
  match s with
  | String c s' => if py_isspace c then lstrip s' else s
  | EmptyString => EmptyString
  end.

(** What is left of [s] after the leading whitespace [int] skips. *)
Fixpoint int_lstrip (s : string) : string :=
  match s with
  | String c s' => if int_isspace c then int_lstrip s' else s
  | EmptyString => EmptyString
  end.

(** The text between the whitespace [int] skips at both ends. *)
Definition int_strip (s : string) : string :=
  String.rev (int_lstrip (String.rev (int_lstrip s))).

(** The digits of an [int] literal: groups of digits separated by single
    underscores. *)
Fixpoint int_digits (acc : Z) (after_digit : bool) (s : string) : option Z :=
  match s with
  | EmptyString => if after_digit then Some acc else None
  | String c s' =>
      match digit_val c with
      | Some d => int_digits (acc * 10 + d) true s'
      | None =>
          if decide (c = "_"%char) then
            if after_digit then int_digits acc false s' else None
          else None
      end
  end.

(** [sys.get_int_max_str_digits()], at its default: [int] refuses a decimal
    literal of more digits. *)
Definition int_max_str_digits : Z := 4300.

(** The number of digits of [s], underscores left out. *)
Fixpoint count_digits (s : string) : Z :=
  match s with
  | EmptyString => 0
  | String c s' =>
      match digit_val c with
      | Some _ => 1 + count_digits s'
      | None => count_digits s'
      end
  end.

(** An unsigned [int] literal: its digits are read, then counted against
    the limit. *)
Definition int_literal (s : string) : option Z :=
  n ← int_digits 0 false s;
  if (count_digits s <=? int_max_str_digits)%Z then Some n else None.

(** [int(text)]; [None] stands for [ValueError]. *)
Definition py_int (text : string) : option Z :=
  match int_strip text with
  | String "-" s' => Z.opp <$> int_literal s'
  | String "+" s' => int_literal s'
  | s => int_literal s
  end.

Definition word_to_num : list (string * Z) :=
  [("one", 1); ("two", 2); ("three", 3); ("four", 4); ("five", 5);
   ("six", 6); ("seven", 7); ("eight", 8); ("nine", 9); ("ten", 10);
   ("twenty", 20); ("thirty", 30); ("forty", 40); ("fifty", 50);
   ("sixty", 60); ("seventy", 70); ("eighty", 80); ("ninety", 90)]%Z.

(** [d.get(k)] on a dictionary literal. *)
Fixpoint assoc_get {A} (k : string) (d : list (string * A)) : option A :=
  match d with
  | [] => None
  | (k', v) :: rest => if String.eqb k' k then Some v else assoc_get k rest
  end.

(** [_convert_to_number(self, text)] *)
Definition _convert_to_number (text : string) : option Z :=
  match py_int text with
  | Some n => Some n
  | None => assoc_get (lower text) word_to_num
  end.

(** The texts [doc[i].text] for [i] in [range(start_idx, end_idx)], [i]
    other than the index of the token itself. *)
Definition context_words_of (doc : Doc) (i start_idx end_idx : nat) : list string :=
  omap (fun j => if decide (j = i) then None else text <$> doc_tokens doc !! j)
       (seq start_idx (end_idx - start_idx)).

(** The [for token in doc] loop of [_extract_numbers_with_context]; [i] is
    [token.i] of the head of [tokens]. *)
Fixpoint numbers_scan (doc : Doc) (i : nat) (tokens : list Token) : list NumberInfo :=
  match tokens with
  | [] => []
  | token :: rest =>
      if like_num token || String.eqb (pos_ token) "NUM" then
        let start_idx := Nat.max 0 (i - 2) in
        let end_idx := Nat.min (length (doc_tokens doc)) (i + 3) in
        let context_words := context_words_of doc i start_idx end_idx in
        {| value := text token;
           numeric_value := _convert_to_number (text token);
           context := join " " context_words;
           position := i;
           dependencies := children token |} :: numbers_scan doc (S i) rest
      else numbers_scan doc (S i) rest
  end.

(** [_extract_numbers_with_context(self, doc)] *)
Definition _extract_numbers_with_context (doc : Doc) : list NumberInfo :=
  numbers_scan doc 0 (doc_tokens doc).

(* ===================================================================== *)
(** ** Entity extractor: conditions *)
(* ===================================================================== *)

(** A value of [self.condition_mappings]. *)
Record Mapping := mkMapping {
  m_code : string;
  m_system : string;
  m_display : string
}.

(** [self.condition_mappings], in the order of the dictionary literal, which
    is the order [items()] iterates in. *)
Definition condition_mappings : list (string * Mapping) :=
  [("diabetes", mkMapping "44054006" "http://snomed.info/sct" "Diabetes mellitus");
   ("diabetic", mkMapping "44054006" "http://snomed.info/sct" "Diabetes mellitus");
   ("hypertension", mkMapping "38341003" "http://snomed.info/sct" "Hypertension");
   ("heart disease", mkMapping "56265001" "http://snomed.info/sct" "Heart disease");
   ("asthma", mkMapping "195967001" "http://snomed.info/sct" "Asthma");
   ("depression", mkMapping "35489007" "http://snomed.info/sct" "Depressive disorder");
   ("cancer", mkMapping "363346000" "http://snomed.info/sct" "Malignant neoplastic disease")].

Definition condition_of (condition : string) (mapping : Mapping) (method : string)
  : Condition :=
  {| term := condition; code := m_code mapping; system := m_system mapping;
     display := m_display mapping; extraction_method := method |}.

(** The inner loop [for condition, mapping in self.condition_mappings.items()]
    for one token: the entry appended before [break], if any. *)
Fixpoint match_token (doc : Doc) (token : Token) (entries : list (string * Mapping))
  : option Condition :=
  match entries with
  | [] => None
  | (condition, mapping) :: rest =>
      let condition_words := String.words condition in
      if (1 <? length condition_words)%nat then
        if forallb (fun word => str_in word (doc_lemmas doc)) condition_words
        then Some (condition_of condition mapping "spacy_lemma_multiword")
        else match_token doc token rest
      else if String.eqb (lemma_ token) condition || String.eqb (text token) condition
      then Some (condition_of condition mapping "spacy_lemma")
      else match_token doc token rest
  end.

(** The loop over [doc.ents]. *)
Definition ner_conditions (doc : Doc) : list Condition :=
  omap (fun ent =>
          if str_in (label_ ent) ["DISEASE"; "SYMPTOM"] then
            match assoc_get (lower (span_text ent)) condition_mappings with
            | Some mapping => Some (condition_of (lower (span_text ent)) mapping "spacy_ner")
            | None => None
            end
          else None)
       (ents doc).

(** The removal of duplicates: [seen] is the set of codes met so far. *)
Fixpoint unique_by_code (seen : gset string) (conditions : list Condition)
  : list Condition :=
  match conditions with
  | [] => []
  | condition :: rest =>
      if decide (code condition ∈ seen) then unique_by_code seen rest
      else condition :: unique_by_code ({[code condition]} ∪ seen) rest
  end.

(** [_extract_conditions_with_spacy(self, doc)] *)
Definition _extract_conditions_with_spacy (doc : Doc) : list Condition :=
  let conditions :=
    (omap (fun token => match_token doc token condition_mappings) (doc_tokens doc)
     ++ ner_conditions doc)%list in
  unique_by_code ∅ conditions.

(* ===================================================================== *)
(** ** Entity extractor: gender *)
(* ===================================================================== *)

Definition male_indicators : list string :=
  ["male"; "man"; "men"; "boy"; "gentleman"; "guy"].
Definition female_indicators : list string :=
  ["female"; "woman"; "women"; "girl"; "lady"; "gal"].

(** [_extract_gender_with_spacy(self, doc)]: the loop over the tokens (the
    loop over [doc.ents] before it does nothing). *)
Fixpoint gender_scan (tokens : list Token) : option string :=
  match tokens with
  | [] => None
  | token :: rest =>
      if str_in (lemma_ token) male_indicators || str_in (text token) male_indicators
      then Some "male"
      else if str_in (lemma_ token) female_indicators
              || str_in (text token) female_indicators
      then Some "female"
      else gender_scan rest
  end.

Definition _extract_gender_with_spacy (doc : Doc) : option string :=
  gender_scan (doc_tokens doc).

(* ===================================================================== *)
(** ** Entity extractor: age filters *)
(* ===================================================================== *)

#[global] Instance NumberInfo_eq_dec : EqDecision NumberInfo.
Proof. solve_decision. Defined.

(** Truthiness of [numeric_value]: neither [None] nor 0. *)
Definition num_truthy (v : option Z) : bool :=
  match v with
  | Some n => negb (n =? 0)%Z
  | None => false
  end.

(** The inner loop [for other_number in numbers_with_context]: the range
    filter appended before [break], if any. *)
Fixpoint range_with_other (number_info : NumberInfo) (numeric_value' : Z)
    (others : list NumberInfo) : option AgeFilter :=
  match others with
  | [] => None
  | other_number :: rest =>
      match numeric_value other_number with
      | Some other_value =>
          if bool_decide (other_number <> number_info) && negb (other_value =? 0)%Z
          then Some (AgeRange (Z.min numeric_value' other_value)
                              (Z.max numeric_value' other_value)
                              "spacy_context_range")
          else range_with_other number_info numeric_value' rest
      | None => range_with_other number_info numeric_value' rest
      end
  end.

(** The loop [for number_info in numbers_with_context]. *)
Fixpoint context_filters (numbers_with_context todo : list NumberInfo) : list AgeFilter :=
  match todo with
  | [] => []
  | number_info :: rest =>
      let context' := lower (context number_info) in
      match numeric_value number_info with
      | None => context_filters numbers_with_context rest
      | Some nv =>
          if (nv =? 0)%Z then context_filters numbers_with_context rest
          else if any_in ["over"; "above"; "more than"; "greater"] context'
          then AgeValue OpGt nv "spacy_context" :: context_filters numbers_with_context rest
          else if any_in ["under"; "below"; "less than"; "younger"] context'
          then AgeValue OpLt nv "spacy_context" :: context_filters numbers_with_context rest
          else if contains "between" context'
          then match range_with_other number_info nv numbers_with_context with
               | Some f => f :: context_filters numbers_with_context rest
               | None => context_filters numbers_with_context rest
               end
          else context_filters numbers_with_context rest
      end
  end.

(** [s[n:]] *)
Fixpoint drop_chars (n : nat) (s : string) : string :=
  match n, s with
  | S n', String _ s' => drop_chars n' s'
  | _, _ => s
  end.

(** [\s+] at the head of [s]: what follows the longest run of whitespace,
    which must not be empty. *)
Definition skip_spaces1 (s : string) : option string :=
  match s with
  | String c s' => if py_isspace c then Some (lstrip s') else None
  | EmptyString => None
  end.

(** The longest run of digits at the head of [s], and what follows it. *)
Fixpoint digits_run (s : string) : string * string :=
  match s with
  | String c s' =>
      match digit_val c with
      | Some _ => let '(digits, rest) := digits_run s' in (String c digits, rest)
      | None => (EmptyString, s)
      end
  | EmptyString => (EmptyString, EmptyString)
  end.

(** [(\d+)] at the head of [s]: the group, which is the longest run of
    digits and must not be empty, and what follows it. *)
Definition digits1 (s : string) : option (string * string) :=
  match digits_run s with
  | (EmptyString, _) => None
  | (digits, rest) => Some (digits, rest)
  end.

(** [self.age_patterns] *)
Definition age_patterns : list (string * string) :=
  [("over", ">"); ("above", ">"); ("under", "<"); ("below", "<");
   ("exactly", "="); ("between", "range")].

(** The pattern [(over|above|under|below|exactly)\s+(\d+)] tried at the head
    of [s]: the two groups, keyword and digits. *)
Fixpoint match_keyword_here (keywords : list string) (s : string)
  : option (string * string) :=
  match keywords with
  | [] => None
  | kw :: rest =>
      let tail :=
        if starts_with kw s
        then r ← skip_spaces1 (drop_chars (String.length kw) s);
             nd ← digits1 r;
             Some (kw, fst nd)
        else None in
      match tail with
      | Some m => Some m
      | None => match_keyword_here rest s
      end
  end.

(** [re.search(r'(over|above|under|below|exactly)\s+(\d+)', s)]: the groups
    of the leftmost match. *)
Fixpoint search_age (s : string) : option (string * string) :=
  match match_keyword_here ["over"; "above"; "under"; "below"; "exactly"] s with
  | Some m => Some m
  | None =>
      match s with
      | String _ s' => search_age s'
      | EmptyString => None
      end
  end.

(** The pattern [between\s+(\d+)\s+and\s+(\d+)] tried at the head of [s]:
    the two groups. *)
Definition match_range_here (s : string) : option (string * string) :=
  if starts_with "between" s then
    r ← skip_spaces1 (drop_chars 7 s);
    a ← digits1 r;
    r ← skip_spaces1 (snd a);
    if starts_with "and" r then
      r ← skip_spaces1 (drop_chars 3 r);
      b ← digits1 r;
      Some (fst a, fst b)
    else None
  else None.

(** [re.search(r'between\s+(\d+)\s+and\s+(\d+)', s)]: the groups of the
    leftmost match. *)
Fixpoint search_range (s : string) : option (string * string) :=
  match match_range_here s with
  | Some m => Some m
  | None =>
      match s with
      | String _ s' => search_range s'
      | EmptyString => None
      end
  end.

(** The operator of [self.age_patterns.get(keyword, ">")], for the keywords
    the pattern can match. *)
Definition operator_of_keyword (kw : string) : Operator :=
  match assoc_get kw age_patterns with
  | Some "<" => OpLt
  | Some "=" => OpEq
  | _ => OpGt
  end.

(** [int(group)] outside any [try]: the [ValueError] reaches the caller. *)
Definition int_of_group (group : string) : result Z :=
  match py_int group with
  | Some n => Ok n
  | None => Raise ValueError
  end.

(** The regex fallback, run when the context analysis gave no filter.  The
    groups are turned into numbers by [int], which nothing guards here. *)
Definition regex_filters (doc_text' : string) : result (list AgeFilter) :=
  age_filters ←
    match search_age doc_text' with
    | Some (group1, group2) =>
        age ← int_of_group group2;
        Ok [AgeValue (operator_of_keyword group1) age "regex_fallback"]
    | None => Ok []
    end;
  match search_range doc_text' with
  | Some (group1, group2) =>
      min' ← int_of_group group1;
      max' ← int_of_group group2;
      Ok (age_filters ++ [AgeRange min' max' "regex_fallback"])%list
  | None => Ok age_filters
  end.

(** [_extract_age_filters_with_spacy(self, doc, numbers_with_context)] *)
Definition _extract_age_filters_with_spacy (doc : Doc)
    (numbers_with_context : list NumberInfo) : result (list AgeFilter) :=
  let age_filters := context_filters numbers_with_context numbers_with_context in
  match age_filters with
  | [] => regex_filters (doc_text doc)
  | _ :: _ => Ok age_filters
  end.

(* ===================================================================== *)
(** ** Entity extractor *)
(* ===================================================================== *)

Section Extractor.

(** [self.nlp], the spaCy pipeline, and [spacy.explain]. *)
Variable nlp : string -> Doc.
Variable explain : string -> option string.

(** [extract_entities(self, query)]; it raises what the extraction of
    the age filters raises. *)
Definition extract_entities (query : string) : result Entities :=
  let doc := nlp (lower query) in
  let intent' := _determine_intent_with_spacy doc in
  let numbers_with_context := _extract_numbers_with_context doc in
  let extracted_entities' :=
    map (fun ent => {| ei_text := span_text ent; ei_label := label_ ent;
                       ei_description := explain (label_ ent) |}) (ents doc) in
  let conditions' := _extract_conditions_with_spacy doc in
  age_filters' ← _extract_age_filters_with_spacy doc numbers_with_context;
  let gender' := _extract_gender_with_spacy doc in
  let resource_types' :=
    (match conditions' with [] => [] | _ :: _ => ["Condition"] end ++ ["Patient"])%list in
  Ok {| conditions := conditions';
        age_filters := age_filters';
        gender := gender';
        intent := intent';
        resource_types := resource_types';
        extracted_numbers := numbers_with_context;
        extracted_entities := extracted_entities' |}.

End Extractor.

(* ===================================================================== *)
(** ** Entity extractor: the legacy intent detection *)
(* ===================================================================== *)

(** [_determine_intent(self, query)], kept for backward compatibility:
    substring tests on the lowercased text. *)
Definition _determine_intent (query : string) : string :=
  let query_lower := lower query in
  if any_in ["show"; "list"; "find"; "get"; "display"] query_lower then "search"
  else if any_in ["count"; "how many"; "number of"] query_lower then "count"
  else if any_in ["average"; "mean"; "median"] query_lower then "aggregate"
  else "search".

(* ===================================================================== *)
(** ** Concrete inputs *)
(* ===================================================================== *)

(** The entry of [condition_mappings] for diabetes, as the extractor
    reports it through the lemma path. *)
Definition cond_diabetes : Condition :=
  {| term := "diabetes"; code := "44054006"; system := "http://snomed.info/sct";
     display := "Diabetes mellitus"; extraction_method := "spacy_lemma" |}.

(** Entities of "show me all diabetic patients over 50". *)
Definition ents_over_50 : Entities :=
  {| conditions := [cond_diabetes];
     age_filters := [AgeValue OpGt 50 "spacy_context"];
     gender := None; intent := "search";
     resource_types := ["Condition"; "Patient"];
     extracted_numbers := []; extracted_entities := [] |}.


(** Two instants of the year 2024 and one of 2025. *)
Definition clock_2024_jan : datetime :=
  {| year := 2024; month := 1; day := 1; hour := 0; minute := 0; second := 0 |}.
Definition clock_2024_dec : datetime :=
  {| year := 2024; month := 12; day := 31; hour := 23; minute := 59; second := 59 |}.
Definition clock_2025_jan : datetime :=
  {| year := 2025; month := 1; day := 1; hour := 0; minute := 0; second := 0 |}.

(** The default base URL of the processor. *)
Definition base_url : string := "https://hapi.fhir.org/baseR4".

(** A search-set collection of five pages, one patient on each, every page
    but the last linked to its successor by a [next] relation. *)
Definition page_url (i : Z) : string :=
  base_url +:+ "?_getpages=f1c2&_getpagesoffset=" +:+ pretty i.

Definition bundle_page (i : Z) (has_next : bool) : pyval :=
  PDict [("resourceType", PStr "Bundle");
         ("type", PStr "searchset");
         ("total", PInt 5);
         ("link", PList (PDict [("relation", PStr "self"); ("url", PStr (page_url i))]
                         :: if has_next
                            then [PDict [("relation", PStr "next");
                                         ("url", PStr (page_url (i + 1)))]]
                            else []));
         ("entry", PList [PDict [("fullUrl", PStr (base_url +:+ "/Patient/" +:+ pretty i));
                                 ("resource", PDict [("resourceType", PStr "Patient");
                                                     ("id", PStr (pretty i))])]])].

Definition five_pages (n : nat) (req : Request) : Response :=
  match req_url req with
  | PStr u =>
      if String.eqb u (base_url +:+ "/Patient") then HttpResponse 200 (Some (bundle_page 1 true))
      else if String.eqb u (page_url 2) then HttpResponse 200 (Some (bundle_page 2 true))
      else if String.eqb u (page_url 3) then HttpResponse 200 (Some (bundle_page 3 true))
      else if String.eqb u (page_url 4) then HttpResponse 200 (Some (bundle_page 4 true))
      else if String.eqb u (page_url 5) then HttpResponse 200 (Some (bundle_page 5 false))
      else HttpResponse 404 None
  | _ => ConnectionFailed
  end.

(** A server that cannot be reached. *)
Definition unreachable (n : nat) (req : Request) : Response := ConnectionFailed.

(** A server whose collection has a string where the list of entries
    should be. *)
Definition string_entry (n : nat) (req : Request) : Response :=
  HttpResponse 200 (Some (PDict [("resourceType", PStr "Bundle"); ("entry", PStr "xyz")])).

(** A server whose collection wraps the number 5 where a resource should
    be. *)
Definition integer_resource (n : nat) (req : Request) : Response :=
  HttpResponse 200 (Some (PDict [("resourceType", PStr "Bundle");
                                 ("entry", PList [PDict [("resource", PInt 5)]])])).

(** The query of "show me all diabetic patients over 50". *)
Definition query_over_50 : FHIRQuery := build_fhir_query clock_2024_jan ents_over_50.

(** A token without syntactic children. *)
Definition tok (text' lemma' pos' : string) (like_num' : bool) : Token :=
  {| text := text'; lemma_ := lemma'; pos_ := pos'; like_num := like_num'; children := [] |}.

(** "average age of many patients" *)
Definition doc_average_many : Doc :=
  {| doc_tokens := [tok "average" "average" "ADJ" false; tok "age" "age" "NOUN" false;
                    tok "of" "of" "ADP" false; tok "many" "many" "ADJ" false;
                    tok "patients" "patient" "NOUN" false];
     doc_text := "average age of many patients";
     ents := [] |}.

(** "average age of patients" *)
Definition doc_average : Doc :=
  {| doc_tokens := [tok "average" "average" "ADJ" false; tok "age" "age" "NOUN" false;
                    tok "of" "of" "ADP" false; tok "patients" "patient" "NOUN" false];
     doc_text := "average age of patients";
     ents := [] |}.

(** "patients with heart disease and asthma" *)
Definition doc_heart_asthma : Doc :=
  {| doc_tokens := [tok "patients" "patient" "NOUN" false; tok "with" "with" "ADP" false;
                    tok "heart" "heart" "NOUN" false; tok "disease" "disease" "NOUN" false;
                    tok "and" "and" "CCONJ" false; tok "asthma" "asthma" "NOUN" false];
     doc_text := "patients with heart disease and asthma";
     ents := [] |}.

(** "patients with asthma" *)
Definition doc_asthma : Doc :=
  {| doc_tokens := [tok "patients" "patient" "NOUN" false; tok "with" "with" "ADP" false;
                    tok "asthma" "asthma" "NOUN" false];
     doc_text := "patients with asthma";
     ents := [] |}.

(** "diabetic patients with diabetes" *)
Definition doc_diabetic_diabetes : Doc :=
  {| doc_tokens := [tok "diabetic" "diabetic" "ADJ" false; tok "patients" "patient" "NOUN" false;
                    tok "with" "with" "ADP" false; tok "diabetes" "diabetes" "NOUN" false];
     doc_text := "diabetic patients with diabetes";
     ents := [] |}.

(** "between 5 and 0" *)
Definition doc_between_5_0 : Doc :=
  {| doc_tokens := [tok "between" "between" "ADP" false; tok "5" "5" "NUM" true;
                    tok "and" "and" "CCONJ" false; tok "0" "0" "NUM" true];
     doc_text := "between 5 and 0";
     ents := [] |}.

(** "between 45 and 30" *)
Definition doc_between_45_30 : Doc :=
  {| doc_tokens := [tok "between" "between" "ADP" false; tok "45" "45" "NUM" true;
                    tok "and" "and" "CCONJ" false; tok "30" "30" "NUM" true];
     doc_text := "between 45 and 30";
     ents := [] |}.

(** A server that answers every request with one patient resource, not a
    collection. *)
Definition patient_7 : list (string * pyval) :=
  [("resourceType", PStr "Patient"); ("id", PStr "7")].

Definition single_patient (n : nat) (req : Request) : Response :=
  HttpResponse 200 (Some (PDict patient_7)).

(** The links of a page: self, next, and a second next that is not used. *)
Definition links_self_next_next : list pyval :=
  [PDict [("relation", PStr "self"); ("url", PStr "u0")];
   PDict [("relation", PStr "next"); ("url", PStr "u1")];
   PDict [("relation", PStr "next"); ("url", PStr "u2")]].

(** Entities of "patients exactly 50 ... over 60": the first filter has the
    operator "=". *)
Definition ents_exactly_50 : Entities :=
  {| conditions := [];
     age_filters := [AgeValue OpEq 50 "regex_fallback"; AgeValue OpGt 60 "spacy_context"];
     gender := None; intent := "search";
     resource_types := ["Patient"];
     extracted_numbers := []; extracted_entities := [] |}.

(** "female patients over 50" *)
Definition doc_female_over_50 : Doc :=
  {| doc_tokens := [tok "female" "female" "ADJ" false; tok "patients" "patient" "NOUN" false;
                    tok "over" "over" "ADP" false; tok "50" "50" "NUM" true];
     doc_text := "female patients over 50";
     ents := [] |}.

(** "exactly 50" *)
Definition doc_exactly_50 : Doc :=
  {| doc_tokens := [tok "exactly" "exactly" "ADV" false; tok "50" "50" "NUM" true];
     doc_text := "exactly 50";
     ents := [] |}.

(* ===================================================================== *)
(** * Properties *)
(* ===================================================================== *)

(* ===================================================================== *)
(** ** Query builder *)
(* ===================================================================== *)

Section BuilderFacts.

Implicit Types (now : datetime) (e : Entities) (f : AgeFilter).

(** The wall clock enters the builder through its year only. *)
Lemma build_fhir_query_year now1 now2 e :
  year now1 = year now2 ->
  build_fhir_query now1 e = build_fhir_query now2 e.
Proof.
  intros Hy. unfold build_fhir_query. rewrite Hy. reflexivity.
Qed.

(** The [birthdate] parameter is the encoding of the head of the list of
    age filters, whatever the intent, the conditions and the gender. *)
Lemma build_birthdate now e f rest :
  age_filters e = f :: rest ->
  parameters (build_fhir_query now e) !! "birthdate" = birthdate_of (year now) f.
Proof.
  intros Hf. unfold build_fhir_query. rewrite Hf.
  destruct (String.eqb (intent e) "count");
    destruct (conditions e); destruct (gender e) as [g|];
    try destruct (str_truthy g);
    destruct f as [[] v m|lo hi m]; cbn [parameters birthdate_of];
    by simplify_map_eq.
Qed.

(** Without age filter there is no [birthdate] parameter. *)
Lemma build_birthdate_none now e :
  age_filters e = [] ->
  parameters (build_fhir_query now e) !! "birthdate" = None.
Proof.
  intros Hf. unfold build_fhir_query. rewrite Hf.
  destruct (String.eqb (intent e) "count");
    destruct (conditions e); destruct (gender e) as [g|];
    try destruct (str_truthy g); cbn [parameters];
    by simplify_map_eq.
Qed.


End BuilderFacts.

(** C2 (as stated, refuted): the builder has no reference-year parameter and
    reads the wall clock, so two runs on the same entities need not agree:
    "over 50" built on 2024-12-31 and on 2025-01-01 gives two different
    queries, with two different birth-date bounds. *)
Lemma C2_build_depends_on_wall_clock :
  parameters (build_fhir_query clock_2024_dec ents_over_50) !! "birthdate"
  = Some "le1974-12-31" /\
  parameters (build_fhir_query clock_2025_jan ents_over_50) !! "birthdate"
  = Some "le1975-12-31" /\
  build_fhir_query clock_2024_dec ents_over_50
  <> build_fhir_query clock_2025_jan ents_over_50.
Proof.
  split; [reflexivity|]. split; [reflexivity|].
  intros Heq.
  assert (Hb : parameters (build_fhir_query clock_2024_dec ents_over_50) !! "birthdate"
               = parameters (build_fhir_query clock_2025_jan ents_over_50) !! "birthdate")
    by (rewrite Heq; reflexivity).
  vm_compute in Hb. discriminate Hb.
Qed.

(** C2 (amended): the reference year is the year of the wall clock at build
    time.  Two runs of the builder on the same entities at instants of the
    same year give the same query, and a first age filter greater-than(50)
    built during 2024 gives the birth-date upper bound 1974-12-31. *)
Theorem C2_build_deterministic_in_clock_year :
  (forall e now1 now2,
      year now1 = year now2 ->
      build_fhir_query now1 e = build_fhir_query now2 e) /\
  (forall e now m rest,
      year now = 2024%Z ->
      age_filters e = AgeValue OpGt 50 m :: rest ->
      parameters (build_fhir_query now e) !! "birthdate" = Some "le1974-12-31").
Proof.
  split.
  - intros e now1 now2 Hy. by apply build_fhir_query_year.
  - intros e now m rest Hy Hf.
    rewrite (build_birthdate now e _ _ Hf). cbn [birthdate_of]. rewrite Hy.
    reflexivity.
Qed.

(** The two statements of C2 (amended) on "over 50", built at the start and
    at the end of 2024. *)
Lemma C2_build_deterministic_in_clock_year_witness :
  year clock_2024_jan = year clock_2024_dec /\
  build_fhir_query clock_2024_jan ents_over_50
  = build_fhir_query clock_2024_dec ents_over_50 /\
  parameters (build_fhir_query clock_2024_dec ents_over_50) !! "birthdate"
  = Some "le1974-12-31".
Proof.
  split; [reflexivity|]. split.
  - apply (proj1 C2_build_deterministic_in_clock_year). reflexivity.
  - apply (proj2 C2_build_deterministic_in_clock_year ents_over_50 clock_2024_dec
             "spacy_context" []); reflexivity.
Defined.



(** C8: the query built for the intent [count] is the query built from the
    same entities for the intent [search]: same resource type, same
    parameter mapping, same include list, same page-size hint. *)
Theorem C8_build_count_equals_search now e :
  build_fhir_query now (with_intent "count" e)
  = build_fhir_query now (with_intent "search" e).
Proof.
  unfold build_fhir_query, with_intent. cbn. reflexivity.
Qed.


(* ===================================================================== *)
(** ** Result fetcher *)
(* ===================================================================== *)

Section FetcherFacts.

Variable fhir_base_url : string.
Variable http_get : nat -> Request -> Response.

Abbreviation loop := (fetch_loop http_get).
Abbreviation try_block := (fetch_try fhir_base_url http_get).
Abbreviation fetch_fuel := (fetch_with_fuel fhir_base_url http_get).
Abbreviation fetch := (fetch_real_fhir_data fhir_base_url http_get).
Abbreviation get := (get_json http_get).

(** The loop needs no more fuel than the pages it may still fetch. *)
Lemma fetch_loop_terminates max_pages fuel st :
  (Z.to_nat (max_pages - pages_fetched st) <= fuel)%nat ->
  is_Some (loop max_pages fuel st).
Proof.
  revert st. induction fuel as [|fuel IH]; intros st Hfuel; loop_step.
  - destruct (py_truthy (current_url st) && (pages_fetched st <? max_pages)%Z) eqn:Hc;
      [|by eexists].
    apply andb_true_iff in Hc as [_ Hlt]. apply Z.ltb_lt in Hlt. lia.
  - destruct (py_truthy (current_url st) && (pages_fetched st <? max_pages)%Z) eqn:Hc;
      [|by eexists].
    apply andb_true_iff in Hc as [_ Hlt]. apply Z.ltb_lt in Hlt.
    destruct (get _ _) as [v|e]; [|by eexists].
    destruct (process_page st v) as [[r|[[rs tc] nxt]]|e]; try by eexists.
    destruct (py_truthy nxt); [|by eexists].
    apply IH. cbn. lia.
Qed.

(** More fuel than needed changes nothing. *)
Lemma fetch_loop_fuel_mono max_pages fuel fuel' st out :
  (fuel <= fuel')%nat ->
  loop max_pages fuel st = Some out ->
  loop max_pages fuel' st = Some out.
Proof.
  revert fuel' st. induction fuel as [|fuel IH]; intros fuel' st Hle; loop_step.
  - destruct fuel'; loop_step;
      destruct (py_truthy (current_url st) && (pages_fetched st <? max_pages)%Z);
      done.
  - destruct fuel' as [|fuel']; [lia|]. loop_step.
    destruct (py_truthy (current_url st) && (pages_fetched st <? max_pages)%Z); [|done].
    destruct (get _ _) as [v|e]; [|done].
    destruct (process_page st v) as [[r|[[rs tc] nxt]]|e]; try done.
    destruct (py_truthy nxt); [|done].
    apply IH. lia.
Qed.

(** Calls and counter.  The loop makes no call beyond [max_pages].  When
    it ends, either the counter misses the last call (it ended by
    [break]), or it counts every call (the bound was reached). *)
Lemma fetch_loop_calls max_pages fuel st out lg :
  (0 <= pages_fetched st)%Z ->
  Z.of_nat (length (log st)) = pages_fetched st ->
  py_truthy (current_url st) = true ->
  loop max_pages fuel st = Some (out, lg) ->
  (Z.of_nat (length lg) <= Z.max max_pages (pages_fetched st))%Z /\
  match out with
  | Ok (Finished st') =>
      log st' = lg /\
      (Z.of_nat (length lg) = pages_fetched st' + 1 \/
       Z.of_nat (length lg) = pages_fetched st' /\ max_pages <= pages_fetched st')%Z
  | _ => True
  end.
Proof.
  revert st. induction fuel as [|fuel IH]; intros st Hpos Hlen Hurl; loop_step;
    rewrite Hurl, andb_true_l.
  - destruct (pages_fetched st <? max_pages)%Z eqn:Hc; [done|].
    intros [= <- <-]. split; [lia|]. split; [done|]. right. split; [done|].
    by apply Z.ltb_ge.
  - destruct (pages_fetched st <? max_pages)%Z eqn:Hc.
    2:{ intros [= <- <-]. split; [lia|]. split; [done|]. right. split; [done|].
        by apply Z.ltb_ge. }
    apply Z.ltb_lt in Hc.
    destruct (get _ _) as [v|e].
    2:{ intros [= <- <-]. rewrite length_app. cbn. split; [lia|done]. }
    destruct (process_page st v) as [[r|[[rs tc] nxt]]|e].
    + intros [= <- <-]. rewrite length_app. cbn. split; [lia|done].
    + destruct (py_truthy nxt) eqn:Hnxt.
      * intros Hrec. apply IH in Hrec; cbn [pages_fetched log current_url]; try done.
        -- destruct Hrec as [Hb Hout]. cbn [pages_fetched] in Hb. split; [lia|].
           destruct out as [[r|st']|e]; done.
        -- lia.
        -- rewrite length_app. cbn. lia.
      * intros [= <- <-]. rewrite length_app. cbn [length pages_fetched log].
        split; [lia|]. split; [done|]. left. lia.
    + intros [= <- <-]. rewrite length_app. cbn. split; [lia|done].
Qed.

(** A payload that is not a JSON object makes the iteration raise. *)
Lemma process_page_dict st v x :
  process_page st v = Ok x -> exists d, v = PDict d.
Proof.
  destruct v; try discriminate. by eexists.
Qed.

(** A response that [get_json] turns into a JSON object is not a failing one. *)
Lemma get_json_dict n req d :
  get n req = Ok (PDict d) -> failing_response (http_get n req) = false.
Proof.
  unfold get_json, failing_response.
  destruct (http_get n req) as [| |status [v|]]; try discriminate.
  - destruct ((400 <=? status)%Z && (status <? 600)%Z); [discriminate|].
    by intros [= ->].
  - by destruct ((400 <=? status)%Z && (status <? 600)%Z).
Qed.

(** As long as the loop does not raise, no call it made met a failing
    response. *)
Lemma fetch_loop_ok_no_failure max_pages fuel st x lg :
  (forall n req, log st !! n = Some req -> failing_response (http_get n req) = false) ->
  loop max_pages fuel st = Some (Ok x, lg) ->
  forall n req, lg !! n = Some req -> failing_response (http_get n req) = false.
Proof.
  revert st. induction fuel as [|fuel IH]; intros st Hlog; loop_step.
  - destruct (py_truthy (current_url st) && (pages_fetched st <? max_pages)%Z); [done|].
    by intros [= <- <-].
  - destruct (py_truthy (current_url st) && (pages_fetched st <? max_pages)%Z);
      [|by intros [= <- <-]].
    set (req := if (pages_fetched st =? 0)%Z then _ else _).
    destruct (get (length (log st)) req) as [v|e] eqn:Hget; [|done].
    assert (Hlog' : forall v', process_page st v = Ok v' ->
              forall n r, (log st ++ [req])%list !! n = Some r ->
                          failing_response (http_get n r) = false).
    { intros v' Hv' n r Hn. apply process_page_dict in Hv' as [d ->].
      apply lookup_app_Some in Hn as [Hn|[Hge Hn]]; [by eapply Hlog|].
      apply list_lookup_singleton_Some in Hn as [Hn <-].
      assert (n = length (log st)) as -> by lia.
      by eapply get_json_dict. }
    destruct (process_page st v) as [[r|[[rs tc] nxt]]|e]; [| |done].
    + intros [= <- <-]. by eapply Hlog'.
    + destruct (py_truthy nxt).
      * apply IH. cbn [log]. by eapply Hlog'.
      * intros [= <- <-]. by eapply Hlog'.
Qed.

(** The [try] block returns only when no call met a failing response. *)
Lemma fetch_try_ok_no_failure fuel query max_pages r lg :
  try_block fuel query max_pages = Some (Ok r, lg) ->
  forall n req, lg !! n = Some req -> failing_response (http_get n req) = false.
Proof.
  unfold fetch_try. destruct (build_params query) as [params|e]; [|done].
  destruct (loop _ _ _) as [[[[r'|st]|e] lg']|] eqn:Hloop; try done.
  - intros [= <- <-]. eapply fetch_loop_ok_no_failure; [|exact Hloop]. done.
  - destruct (fhir_bundle st); [|done].
    intros [= <- <-]. eapply fetch_loop_ok_no_failure; [|exact Hloop]. done.
Qed.

(** Whatever the [try] block raises, the caller gets the fallback result. *)
Lemma fetch_with_fuel_raise fuel query max_pages e lg :
  try_block fuel query max_pages = Some (Raise e, lg) ->
  fetch_fuel fuel query max_pages = Some (_generate_fallback_results query, lg).
Proof.
  unfold fetch_with_fuel. intros ->. by destruct e.
Qed.

(** The result of the single-resource case carries neither an error
    marker nor a page count. *)
Lemma process_page_returned st v r :
  process_page st v = Ok (inl r) -> error r = None /\ res_pages_fetched r = None.
Proof.
  unfold process_page. destruct v; try discriminate. cbn.
  destruct (negb _); [by intros [= <-]|].
  unfold mbind, result_bind. intros H. repeat case_match; simplify_eq.
Qed.

Lemma fetch_loop_returned max_pages fuel st r lg :
  loop max_pages fuel st = Some (Ok (Returned r), lg) ->
  error r = None /\ res_pages_fetched r = None.
Proof.
  revert st. induction fuel as [|fuel IH]; intros st; loop_step.
  - by destruct (py_truthy (current_url st) && (pages_fetched st <? max_pages)%Z).
  - destruct (py_truthy (current_url st) && (pages_fetched st <? max_pages)%Z); [|done].
    destruct (get _ _) as [v|e]; [|done].
    destruct (process_page st v) as [[r'|[[rs tc] nxt]]|e] eqn:Hpage; [| |done].
    + intros [= <- <-]. by eapply process_page_returned.
    + destruct (py_truthy nxt); [apply IH|done].
Qed.

(** A result of the [try] block carries no error marker. *)
Lemma fetch_try_ok_no_error fuel query max_pages r lg :
  try_block fuel query max_pages = Some (Ok r, lg) -> error r = None.
Proof.
  unfold fetch_try.
  destruct (build_params query) as [params|e]; [|done].
  destruct (loop _ _ _) as [[[[r'|st]|e] lg']|] eqn:Hloop; try done.
  - intros [= <- <-]. by apply fetch_loop_returned in Hloop as [Hnone _].
  - destruct (fhir_bundle st); [|done]. by intros [= <- <-].
Qed.

(** Only the fallback result carries an error marker. *)
Lemma fetch_with_fuel_error fuel query max_pages r lg :
  fetch_fuel fuel query max_pages = Some (r, lg) ->
  is_Some (error r) ->
  r = _generate_fallback_results query.
Proof.
  unfold fetch_with_fuel, fetch_try.
  destruct (build_params query) as [params|e]; [|by destruct e; intros [= <- <-]].
  destruct (loop _ _ _) as [[[[r'|st]|e] lg']|] eqn:Hloop; try done.
  - intros [= <- <-] [msg Herr]. apply fetch_loop_returned in Hloop as [Hnone _].
    congruence.
  - destruct (fhir_bundle st); [|by intros [= <- <-]].
    intros [= <- <-] [? [=]].
  - by destruct e; intros [= <- <-].
Qed.

(** With [max_pages] iterations of fuel the fetch returns. *)
Lemma fetch_real_fhir_data_returns query max_pages :
  is_Some (fetch query max_pages).
Proof.
  unfold fetch_real_fhir_data, fetch_with_fuel, fetch_try.
  destruct (build_params query) as [params|e]; [|by destruct e; eexists].
  edestruct (fetch_loop_terminates max_pages (Z.to_nat max_pages)) as [[out lg] ->].
  { cbn. rewrite Z.sub_0_r. done. }
  destruct out as [[r|st]|e]; [by eexists| |by destruct e; eexists].
  by destruct (fhir_bundle st); eexists.
Qed.

(** The URL of the first request is never empty. *)
Lemma first_url_truthy base r :
  str_truthy (base +:+ "/" +:+ ResourceType_value r) = true.
Proof.
  destruct base; [by destruct r|done].
Qed.

(** The fetch makes at most [max_pages] calls of [session.get], whether it
    ends well or not; and the page count it reports is the number of calls
    when the loop ended by [break], one more when the bound was reached. *)
Lemma fetch_calls_bounded query max_pages r lg :
  (1 <= max_pages)%Z ->
  fetch query max_pages = Some (r, lg) ->
  (Z.of_nat (length lg) <= max_pages)%Z /\
  forall k, res_pages_fetched r = Some k ->
    k = Z.of_nat (length lg) \/
    (k = Z.of_nat (length lg) + 1 /\ Z.of_nat (length lg) = max_pages)%Z.
Proof.
  intros Hmp. unfold fetch_real_fhir_data, fetch_with_fuel, fetch_try.
  destruct (build_params query) as [params|e].
  2:{ destruct e; intros [= <- <-]; cbn; split; (lia || done). }
  destruct (loop _ _ _) as [[out lg']|] eqn:Hloop; [|done].
  pose proof Hloop as Hloop'.
  apply fetch_loop_calls in Hloop as [Hb Hout]; cbn [pages_fetched log current_url];
    [|done|done|apply first_url_truthy].
  cbn [pages_fetched initial_state] in Hb. rewrite Z.max_l in Hb by lia.
  destruct out as [[r'|st]|e].
  - intros [= <- <-]. split; [done|]. intros k Hk.
    apply fetch_loop_returned in Hloop' as [_ Hnone]. congruence.
  - destruct (fhir_bundle st); [|intros [= <- <-]; by split].
    intros [= <- <-]. split; [done|]. cbn. intros k [= <-].
    destruct Hout as [_ [Hbr|[Hall Hmax]]]; [left; lia|right; lia].
  - destruct e; intros [= <- <-]; by split.
Qed.

(** The next link an iteration goes by is the one of the page it read. *)
Lemma process_page_next st v rs tc nxt :
  process_page st v = Ok (inr (rs, tc, nxt)) -> _get_next_link v = Ok nxt.
Proof.
  intros H. unfold process_page, mbind, result_bind in H.
  repeat case_match; simplify_eq; done.
Qed.

(** The last page and the counter.  When the loop ends, the last bundle
    is the payload of the last call; either it has no next link (the loop
    ended by [break]) and the counter misses that call, or it has one (the
    condition of the [while] became false), the counter counts every call
    and has reached [max_pages]. *)
Lemma fetch_loop_last_page max_pages fuel st st' lg :
  (0 <= pages_fetched st <= max_pages)%Z ->
  Z.of_nat (length (log st)) = pages_fetched st ->
  py_truthy (current_url st) = true ->
  match fhir_bundle st with
  | None => True
  | Some b =>
      exists req nxt,
        last (log st) = Some req /\ get (pred (length (log st))) req = Ok b /\
        _get_next_link b = Ok nxt /\ py_truthy nxt = true
  end ->
  loop max_pages fuel st = Some (Ok (Finished st'), lg) ->
  log st' = lg /\
  match fhir_bundle st' with
  | None => True
  | Some b =>
      exists req nxt,
        last lg = Some req /\ get (pred (length lg)) req = Ok b /\
        _get_next_link b = Ok nxt /\
        if py_truthy nxt
        then (Z.of_nat (length lg) = pages_fetched st' /\ pages_fetched st' = max_pages)%Z
        else (Z.of_nat (length lg) = pages_fetched st' + 1)%Z
  end.
Proof.
  revert st. induction fuel as [|fuel IH]; intros st Hpf Hlen Hurl Hlast; loop_step;
    rewrite Hurl, andb_true_l.
  - destruct (pages_fetched st <? max_pages)%Z eqn:Hc; [done|].
    apply Z.ltb_ge in Hc. intros [= <- <-]. split; [done|].
    destruct (fhir_bundle st) as [b|]; [|done].
    destruct Hlast as (req & nxt & Hreq & Hget & Hnext & Htruthy).
    exists req, nxt. rewrite Htruthy. repeat split; (done || lia).
  - destruct (pages_fetched st <? max_pages)%Z eqn:Hc.
    2:{ apply Z.ltb_ge in Hc. intros [= <- <-]. split; [done|].
        destruct (fhir_bundle st) as [b|]; [|done].
        destruct Hlast as (req & nxt & Hreq & Hget & Hnext & Htruthy).
        exists req, nxt. rewrite Htruthy. repeat split; (done || lia). }
    apply Z.ltb_lt in Hc.
    set (req := if (pages_fetched st =? 0)%Z then _ else _).
    destruct (get (length (log st)) req) as [v|e] eqn:Hget; [|done].
    destruct (process_page st v) as [[r|[[rs tc] nxt]]|e] eqn:Hpage; [done| |done].
    apply process_page_next in Hpage.
    assert (Hreq : last (log st ++ [req]) = Some req) by apply last_snoc.
    assert (Hget' : get (pred (length (log st ++ [req]))) req = Ok v).
    { rewrite length_app. cbn [length]. by replace (pred _) with (length (log st)) by lia. }
    destruct (py_truthy nxt) eqn:Hnxt.
    + apply IH; cbn [pages_fetched log current_url fhir_bundle].
      * lia.
      * rewrite length_app. cbn [length]. lia.
      * done.
      * by exists req, nxt.
    + intros [= <- <-]. cbn [log fhir_bundle pages_fetched]. split; [done|].
      exists req, nxt. rewrite Hnxt. repeat split; try done.
      rewrite length_app. cbn [length]. lia.
Qed.

(** The page count of a result, the last page and the calls made. *)
Lemma fetch_page_count query max_pages r lg k :
  (1 <= max_pages)%Z ->
  fetch query max_pages = Some (r, lg) ->
  res_pages_fetched r = Some k ->
  exists req next_url,
    last lg = Some req /\
    get (pred (length lg)) req = Ok (bundle r) /\
    _get_next_link (bundle r) = Ok next_url /\
    if py_truthy next_url
    then (Z.of_nat (length lg) = max_pages /\ k = max_pages + 1)%Z
    else k = Z.of_nat (length lg).
Proof.
  intros Hmp. unfold fetch_real_fhir_data, fetch_with_fuel, fetch_try.
  destruct (build_params query) as [params|e]; [|by destruct e; intros [= <- <-]].
  destruct (loop _ _ _) as [[[[r'|st]|e] lg']|] eqn:Hloop; [| | |done].
  - intros [= <- <-] Hk. apply fetch_loop_returned in Hloop as [_ Hnone]. congruence.
  - apply fetch_loop_last_page in Hloop as [_ Hlast];
      cbn [pages_fetched log current_url fhir_bundle initial_state];
      [|lia|done|apply first_url_truthy|done].
    destruct (fhir_bundle st) as [b|]; [|by intros [= <- <-]].
    intros [= <- <-] [= <-]. cbn [bundle].
    destruct Hlast as (req & nxt & Hreq & Hget & Hnext & Hcount).
    exists req, nxt. do 3 (split; [done|]).
    destruct (py_truthy nxt); lia.
  - by destruct e; intros [= <- <-].
Qed.

End FetcherFacts.


(** C1 (as stated, refuted): a malformed payload is not always a failure.
    A collection whose entries are given as a string is read as an empty
    page, and one whose entry wraps a number in place of a resource as a
    page of one record: nothing raises, and the result is a normal one,
    without error marker. *)
Lemma C1_malformed_payload_without_error :
  (exists r lg,
     fetch_real_fhir_data base_url string_entry query_over_50 3 = Some (r, lg) /\
     length lg = 1%nat /\
     total r = PInt 0 /\ resources r = [] /\ res_pages_fetched r = Some 1%Z /\
     error r = None /\ r <> _generate_fallback_results query_over_50) /\
  (exists r lg,
     fetch_real_fhir_data base_url integer_resource query_over_50 3 = Some (r, lg) /\
     length lg = 1%nat /\
     total r = PInt 1 /\ resources r = [PInt 5] /\ res_pages_fetched r = Some 1%Z /\
     error r = None /\ r <> _generate_fallback_results query_over_50).
Proof.
  split.
  - destruct (fetch_real_fhir_data base_url string_entry query_over_50 3)
      as [[r lg]|] eqn:Hfetch; [|by vm_compute in Hfetch].
    exists r, lg. split; [done|].
    vm_compute in Hfetch. injection Hfetch as <- <-. by repeat split.
  - destruct (fetch_real_fhir_data base_url integer_resource query_over_50 3)
      as [[r lg]|] eqn:Hfetch; [|by vm_compute in Hfetch].
    exists r, lg. split; [done|].
    vm_compute in Hfetch. injection Hfetch as <- <-. by repeat split.
Qed.

(** C1 (amended): [fetch_real_fhir_data] always returns to its caller: a
    result is produced for every server, query and page bound.  When a call
    of the run met a failing response (no connection, timeout, error status
    400 to 599, body that is not JSON or not a JSON object), and more
    generally whenever the [try] block raises, the result is the fallback
    one, in which the total is 0, the list of resources is empty and the
    error marker is set.  When the [try] block raises nothing, its result
    is returned as it is, without error marker.  In every returned result,
    a set error marker comes with total 0 and no resource. *)
Theorem C1_fetch_falls_back_on_failure fhir_base_url http_get query max_pages :
  exists r lg,
    fetch_real_fhir_data fhir_base_url http_get query max_pages = Some (r, lg) /\
    ((exists n req, lg !! n = Some req /\ failing_response (http_get n req) = true) ->
     r = _generate_fallback_results query) /\
    (forall e lg',
        fetch_try fhir_base_url http_get (Z.to_nat max_pages) query max_pages
        = Some (Raise e, lg') ->
        r = _generate_fallback_results query) /\
    (forall r' lg',
        fetch_try fhir_base_url http_get (Z.to_nat max_pages) query max_pages
        = Some (Ok r', lg') ->
        r = r' /\ error r = None) /\
    (is_Some (error r) -> total r = PInt 0 /\ resources r = []) /\
    total (_generate_fallback_results query) = PInt 0 /\
    resources (_generate_fallback_results query) = [] /\
    is_Some (error (_generate_fallback_results query)).
Proof.
  destruct (fetch_real_fhir_data_returns fhir_base_url http_get query max_pages)
    as [[r lg] Hfetch].
  exists r, lg. split; [exact Hfetch|].
  unfold fetch_real_fhir_data in Hfetch. repeat split.
  - intros (n & req & Hn & Hfail).
    unfold fetch_with_fuel in Hfetch.
    destruct (fetch_try _ _ _ _ _) as [[[r'|e] lg']|] eqn:Htry; [| |done].
    + injection Hfetch as <- <-.
      pose proof (fetch_try_ok_no_failure _ _ _ _ _ _ _ Htry n req Hn). congruence.
    + by destruct e; injection Hfetch as <- <-.
  - intros e lg' Htry. apply fetch_with_fuel_raise in Htry. congruence.
  - unfold fetch_with_fuel in Hfetch. rewrite H in Hfetch. by injection Hfetch as <- _.
  - unfold fetch_with_fuel in Hfetch. pose proof H as Htry. rewrite H in Hfetch.
    injection Hfetch as <- _. by eapply fetch_try_ok_no_error.
  - apply (fetch_with_fuel_error _ _ _ _ _ _ _ Hfetch) in H. by subst r.
  - apply (fetch_with_fuel_error _ _ _ _ _ _ _ Hfetch) in H. by subst r.
  - by eexists.
Qed.

(** C1 against a server that cannot be reached: one call, then the
    fallback result. *)
Lemma C1_fetch_falls_back_on_failure_witness :
  exists r lg,
    fetch_real_fhir_data base_url unreachable query_over_50 3 = Some (r, lg) /\
    length lg = 1%nat /\
    total r = PInt 0 /\ resources r = [] /\
    error r = Some "Unable to fetch data from FHIR server. This is fallback data.".
Proof.
  destruct (C1_fetch_falls_back_on_failure base_url unreachable query_over_50 3)
    as (r & lg & Hfetch & Hfail & _).
  exists r, lg. split; [exact Hfetch|].
  assert (Hlg : exists req, lg = [req]).
  { vm_compute in Hfetch. injection Hfetch as _ <-. by eexists. }
  destruct Hlg as (req & ->). split; [reflexivity|].
  rewrite Hfail; [by repeat split|].
  exists 0%nat, req. split; reflexivity.
Defined.

(** C3, on the collection of five linked pages with [max_pages = 3]: three
    calls are made and the fetch ends without error marker, with the three
    patients of the pages read; but the page count it returns is 4. *)
Theorem C3_fetch_five_pages_bound_3 :
  exists r lg,
    fetch_real_fhir_data base_url five_pages query_over_50 3 = Some (r, lg) /\
    length lg = 3%nat /\
    length (resources r) = 3%nat /\
    error r = None /\
    res_pages_fetched r = Some 4%Z.
Proof.
  destruct (fetch_real_fhir_data base_url five_pages query_over_50 3)
    as [[r lg]|] eqn:Hfetch; [|by vm_compute in Hfetch].
  exists r, lg. split; [done|].
  vm_compute in Hfetch. injection Hfetch as <- <-. by repeat split.
Qed.

(** When the collection ends before the bound, the count is right: with
    [max_pages = 7] the five pages are read and 5 is returned. *)
Lemma fetch_five_pages_bound_7 :
  exists r lg,
    fetch_real_fhir_data base_url five_pages query_over_50 7 = Some (r, lg) /\
    length lg = 5%nat /\
    error r = None /\
    res_pages_fetched r = Some 5%Z.
Proof.
  destruct (fetch_real_fhir_data base_url five_pages query_over_50 7)
    as [[r lg]|] eqn:Hfetch; [|by vm_compute in Hfetch].
  exists r, lg. split; [done|].
  vm_compute in Hfetch. injection Hfetch as <- <-. by repeat split.
Qed.

(** X1: for every server and query and every [max_pages >= 1], the fetch
    returns after at most [max_pages] calls of [session.get]. *)
Lemma fetch_terminates_within_max_pages fhir_base_url http_get query max_pages :
  (1 <= max_pages)%Z ->
  exists r lg,
    fetch_real_fhir_data fhir_base_url http_get query max_pages = Some (r, lg) /\
    (Z.of_nat (length lg) <= max_pages)%Z.
Proof.
  intros Hmp.
  destruct (fetch_real_fhir_data_returns fhir_base_url http_get query max_pages)
    as [[r lg] Hfetch].
  exists r, lg. split; [done|]. by eapply fetch_calls_bounded.
Qed.

(* ===================================================================== *)
(** ** Entity extractor *)
(* ===================================================================== *)

(** Lowering a character twice is lowering it once. *)
Lemma lower_ascii_idemp c : lower_ascii (lower_ascii c) = lower_ascii c.
Proof.
  destruct c as [[] [] [] [] [] [] [] []]; reflexivity.
Qed.

Lemma lower_idemp s : lower (lower s) = lower s.
Proof.
  induction s as [|c s IH]; cbn; [done|]. by rewrite lower_ascii_idemp, IH.
Qed.

(** Membership in the union of the three keyword sets, by class. *)
Lemma keyword_union_class lemma :
  str_in lemma (search_verbs ++ count_verbs ++ aggregate_verbs)%list
  = bool_decide (is_Some (keyword_class lemma)).
Proof.
  unfold str_in, keyword_class. rewrite !existsb_app. fold (str_in lemma search_verbs).
  fold (str_in lemma count_verbs). fold (str_in lemma aggregate_verbs).
  by destruct (str_in lemma search_verbs), (str_in lemma count_verbs),
    (str_in lemma aggregate_verbs).
Qed.

(** Without a token of lemma "many", the token loop returns the class of
    the first keyword lemma. *)
Lemma intent_scan_without_many doc tokens :
  str_in "many" (doc_lemmas doc) = false ->
  intent_scan doc tokens = first_keyword_class tokens.
Proof.
  intros Hmany. induction tokens as [|token rest IH]; cbn [intent_scan first_keyword_class];
    [done|].
  rewrite keyword_union_class, Hmany, orb_false_r. unfold keyword_class.
  destruct (str_in (lemma_ token) search_verbs); [by rewrite orb_comm|].
  destruct (str_in (lemma_ token) count_verbs); [by rewrite orb_comm|].
  destruct (str_in (lemma_ token) aggregate_verbs); [by rewrite orb_comm|].
  rewrite IH. by destruct (_ || _).
Qed.

(** With such a token, the first token that is a verb or has a keyword
    lemma decides between search and count. *)
Lemma intent_scan_with_many doc tokens :
  str_in "many" (doc_lemmas doc) = true ->
  intent_scan doc tokens = first_verb_or_keyword tokens.
Proof.
  intros Hmany. induction tokens as [|token rest IH];
    cbn [intent_scan first_verb_or_keyword]; [done|].
  rewrite keyword_union_class, Hmany, orb_true_r, IH.
  by destruct (_ || _), (str_in (lemma_ token) search_verbs).
Qed.

(** The codes left by the removal of duplicates are pairwise distinct and
    were not seen before. *)
Lemma unique_by_code_NoDup seen conds :
  NoDup (map code (unique_by_code seen conds)) /\
  forall c, c ∈ unique_by_code seen conds -> code c ∉ seen.
Proof.
  revert seen. induction conds as [|c conds IH]; intros seen; cbn.
  - split; [constructor|]. intros c Hc. by apply elem_of_nil in Hc.
  - destruct (decide (code c ∈ seen)) as [Hin|Hout]; [apply IH|].
    destruct (IH ({[code c]} ∪ seen)) as [Hnd Hfresh]. split.
    + cbn. constructor; [|done]. intros Hc.
      apply list_elem_of_fmap in Hc as (c' & Heq & Hc'). apply Hfresh in Hc'.
      apply Hc'. rewrite Heq. apply elem_of_union_l. by apply elem_of_singleton.
    + intros c' Hc'. apply elem_of_cons in Hc' as [->|Hc']; [done|].
      apply Hfresh in Hc'. intros Hseen. apply Hc'. by apply elem_of_union_r.
Qed.

(** The removal of duplicates keeps the first condition of each code, in
    the order of first occurrence. *)
Lemma unique_by_code_first seen c conds :
  code c ∉ seen ->
  unique_by_code seen (c :: conds) = c :: unique_by_code ({[code c]} ∪ seen) conds.
Proof.
  intros Hc. cbn. by destruct (decide (code c ∈ seen)).
Qed.

(** X15: the conditions the extractor returns have pairwise distinct codes. *)
Lemma extract_conditions_unique_codes doc :
  NoDup (map code (_extract_conditions_with_spacy doc)).
Proof.
  apply unique_by_code_NoDup.
Qed.

(** A text with "diabetic" and "diabetes" yields one condition of the code
    of diabetes, under the term met first. *)
Lemma extract_conditions_diabetic_diabetes :
  _extract_conditions_with_spacy doc_diabetic_diabetes
  = [condition_of "diabetic" (mkMapping "44054006" "http://snomed.info/sct" "Diabetes mellitus")
                  "spacy_lemma"].
Proof. by vm_compute. Qed.

(** A range filter of the context analysis is ordered. *)
Lemma range_with_other_ordered number_info nv others lo hi m :
  range_with_other number_info nv others = Some (AgeRange lo hi m) ->
  (lo <= hi)%Z.
Proof.
  induction others as [|o others IH]; cbn; [done|].
  destruct (numeric_value o) as [ov|]; [|done].
  destruct (_ && _); [|done]. intros [= <- <- _]. lia.
Qed.

(** On "between 45 and 30" the context analysis orders the two ages. *)
Lemma extract_age_filters_between_45_30 :
  _extract_age_filters_with_spacy doc_between_45_30
    (_extract_numbers_with_context doc_between_45_30)
  = Ok [AgeRange 30 45 "spacy_context_range"].
Proof. by vm_compute. Qed.

(** C5, on "patients with heart disease and asthma": the token "asthma" has
    the lemma of the dictionary term "asthma", and alone it is matched; but
    with "heart" and "disease" among the lemmas, the multi-word entry, which
    stands before "asthma" in the dictionary, is appended for every token
    and ends the scan of the dictionary there, so the condition asthma is
    not extracted. *)
Theorem C5_conditions_heart_disease_hides_asthma :
  str_in "asthma" (doc_lemmas doc_heart_asthma) = true /\
  map code (_extract_conditions_with_spacy doc_asthma) = ["195967001"] /\
  map code (_extract_conditions_with_spacy doc_heart_asthma) = ["56265001"].
Proof. by vm_compute. Qed.

(** C6, on "between 5 and 0": the mention 5 finds no other mention of
    non-zero value and the mention 0 is skipped, so the context analysis
    gives no filter; the regex fallback then takes the two numbers in the
    order of the text: min = 5 and max = 0. *)
Theorem C6_regex_range_keeps_text_order :
  context_filters (_extract_numbers_with_context doc_between_5_0)
                  (_extract_numbers_with_context doc_between_5_0) = [] /\
  _extract_age_filters_with_spacy doc_between_5_0
    (_extract_numbers_with_context doc_between_5_0)
  = Ok [AgeRange 5 0 "regex_fallback"].
Proof. by vm_compute. Qed.

(** C7 (as stated, refuted): in "average age of many patients" the first
    keyword lemma is "average", of the aggregate set, and the detected
    intent is count. *)
Lemma C7_intent_many_overrides_aggregate :
  first_keyword_class (doc_tokens doc_average_many) = Some "aggregate" /\
  intent_spec doc_average_many = "aggregate" /\
  _determine_intent_with_spacy doc_average_many = "count".
Proof. by vm_compute. Qed.

(** C7 (amended): in a document without token of lemma "many", the intent
    is the class (search, then count, then aggregate) of the first token
    whose lemma is in one of the three keyword sets, and the phrase
    fallback when there is none.  In a document with a token of lemma
    "many", the first token that is tagged VERB or has a keyword lemma
    decides: search when its lemma is a search verb, count otherwise; the
    phrase fallback applies when there is no such token. *)
Theorem C7_intent_by_first_keyword doc :
  (str_in "many" (doc_lemmas doc) = false ->
   _determine_intent_with_spacy doc = intent_spec doc) /\
  (str_in "many" (doc_lemmas doc) = true ->
   _determine_intent_with_spacy doc = intent_with_many doc).
Proof.
  unfold _determine_intent_with_spacy, intent_spec, intent_with_many. split; intros Hmany.
  - by rewrite intent_scan_without_many.
  - by rewrite intent_scan_with_many.
Qed.

(** C7 (amended) on "average age of patients" and on "average age of many
    patients". *)
Lemma C7_intent_by_first_keyword_witness :
  str_in "many" (doc_lemmas doc_average) = false /\
  _determine_intent_with_spacy doc_average = "aggregate" /\
  str_in "many" (doc_lemmas doc_average_many) = true /\
  _determine_intent_with_spacy doc_average_many = "count".
Proof.
  split; [reflexivity|]. split.
  - rewrite (proj1 (C7_intent_by_first_keyword doc_average)); reflexivity.
  - split; [reflexivity|].
    rewrite (proj2 (C7_intent_by_first_keyword doc_average_many)); reflexivity.
Defined.

(** C10: the extractor gives the same entities for a text and for its
    lowercased form (or raises the same exception for both), whatever the
    annotator: the text is lowercased before it is annotated, and nothing
    else of it is read. *)
Theorem C10_extract_entities_case_insensitive nlp explain query :
  extract_entities nlp explain query = extract_entities nlp explain (lower query).
Proof.
  unfold extract_entities. by rewrite lower_idemp.
Qed.

(* ===================================================================== *)
(** ** Result fetcher: requests, parameters and links *)
(* ===================================================================== *)

Lemma add_includes_cons i rest (params : gmap string ParamVal) :
  add_includes (i :: rest) params
  = match params !! "_include" with
    | None => add_includes rest (<["_include" := PVList [i]]> params)
    | Some (PVStr s) => add_includes rest (<["_include" := PVList [s; i]]> params)
    | Some (PVList l) => add_includes rest (<["_include" := PVList (l ++ [i])%list]> params)
    | Some (PVInt _) => Raise AttributeError
    end.
Proof.
  cbn [add_includes].
  destruct (params !! "_include") as [[s|l|n]|] eqn:Hp;
    rewrite ?Hp, ?lookup_insert_eq, ?insert_insert_eq; done.
Qed.

Lemma add_includes_list includes (params : gmap string ParamVal) l :
  params !! "_include" = Some (PVList l) ->
  add_includes includes params
  = Ok (match includes with
        | [] => params
        | _ => <["_include" := PVList (l ++ includes)%list]> params
        end).
Proof.
  revert params l. induction includes as [|i rest IH]; intros params l Hp; [done|].
  rewrite add_includes_cons, Hp.
  rewrite (IH _ (l ++ [i])%list) by apply lookup_insert_eq.
  destruct rest; [done|]. by rewrite insert_insert_eq, <- app_assoc.
Qed.

Lemma build_params_total (query : FHIRQuery) :
  exists params,
    build_params query = Ok params /\
    (forall c, _count query = Some c -> c <> 0%Z ->
               params !! "_count" = Some (PVInt (Z.min c 50))) /\
    (forall k, k <> "_include" -> k <> "_count" ->
               params !! k = PVStr <$> parameters query !! k) /\
    (forall i rest, _include query = Some (i :: rest) ->
                    parameters query !! "_include" = None ->
                    params !! "_include" = Some (PVList (i :: rest))).
Proof.
  unfold build_params.
  assert (Hinc : exists p1,
    match _include query with
    | Some (i :: rest) => add_includes (i :: rest) (PVStr <$> parameters query)
    | _ => Ok (PVStr <$> parameters query)
    end = Ok p1 /\
    (forall k, k <> "_include" -> p1 !! k = PVStr <$> parameters query !! k) /\
    (forall i rest, _include query = Some (i :: rest) ->
                    parameters query !! "_include" = None ->
                    p1 !! "_include" = Some (PVList (i :: rest)))).
  { destruct (_include query) as [[|i rest]|].
    - eexists. split; [done|]. split; [intros; by rewrite lookup_fmap|done].
    - rewrite add_includes_cons, lookup_fmap.
      destruct (parameters query !! "_include") as [s|] eqn:Hq; cbn.
      + erewrite add_includes_list by apply lookup_insert_eq.
        eexists. split; [done|]. split; [|done].
        intros k Hk. destruct rest; rewrite ?lookup_insert_ne by done;
          by rewrite lookup_fmap.
      + erewrite add_includes_list by apply lookup_insert_eq.
        eexists. split; [done|]. split.
        * intros k Hk. destruct rest; rewrite ?lookup_insert_ne by done;
            by rewrite lookup_fmap.
        * intros i' rest' [= <- <-] _. destruct rest; by rewrite lookup_insert_eq.
    - eexists. split; [done|]. split; [intros; by rewrite lookup_fmap|done]. }
  destruct Hinc as (p1 & -> & Hk & Hi). cbn.
  destruct (_count query) as [c|].
  - destruct (Z.eqb_spec c 0) as [->|Hc].
    + exists p1. split; [done|]. split; [by intros c [= <-]|]. split; [|done].
      intros k ? ?. by apply Hk.
    + eexists. split; [done|]. split; [|split].
      * intros c' [= <-] _. by rewrite lookup_insert_eq.
      * intros k ? ?. rewrite lookup_insert_ne by done. by apply Hk.
      * intros i rest ? ?. rewrite lookup_insert_ne by done. by apply Hi.
  - exists p1. split; [done|]. split; [done|]. split; [|done].
    intros k ? ?. by apply Hk.
Qed.

(** X6: the parameters of the first request are built without error from
    any query: the parameters of the query are kept, a page size is capped
    at 50, and the includes are added as a list. *)
Theorem build_params_never_raises (query : FHIRQuery) :
  exists params,
    build_params query = Ok params /\
    (forall c, _count query = Some c -> c <> 0%Z ->
               params !! "_count" = Some (PVInt (Z.min c 50))) /\
    (forall k, k <> "_include" -> k <> "_count" ->
               params !! k = PVStr <$> parameters query !! k) /\
    (forall i rest, _include query = Some (i :: rest) ->
                    parameters query !! "_include" = None ->
                    params !! "_include" = Some (PVList (i :: rest))).
Proof.
  apply build_params_total.
Qed.

Section FetcherRequests.

Variable fhir_base_url : string.
Variable http_get : nat -> Request -> Response.

Abbreviation loop := (fetch_loop http_get).
Abbreviation fetch := (fetch_real_fhir_data fhir_base_url http_get).
Abbreviation get := (get_json http_get).

(** The calls the loop adds to its log: the call of index 0 carries the
    current URL and parameters, every later call carries no parameters. *)
Lemma fetch_loop_log_shape max_pages fuel st out lg :
  Z.of_nat (length (log st)) = pages_fetched st ->
  loop max_pages fuel st = Some (out, lg) ->
  exists more,
    lg = (log st ++ more)%list /\
    forall n req, more !! n = Some req ->
      match (length (log st) + n)%nat with
      | O => req = {| req_url := current_url st; req_params := Some (current_params st) |}
      | S _ => req_params req = None
      end.
Proof.
  revert st. induction fuel as [|fuel IH]; intros st Hlen; loop_step.
  - destruct (py_truthy (current_url st) && (pages_fetched st <? max_pages)%Z); [done|].
    intros [= <- <-]. exists []. split; [by rewrite app_nil_r|done].
  - destruct (py_truthy (current_url st) && (pages_fetched st <? max_pages)%Z).
    2:{ intros [= <- <-]. exists []. split; [by rewrite app_nil_r|done]. }
    set (req := if (pages_fetched st =? 0)%Z then _ else _).
    assert (Hreq : forall n r, [req] !! n = Some r ->
              match (length (log st) + n)%nat with
              | O => r = {| req_url := current_url st;
                            req_params := Some (current_params st) |}
              | S _ => req_params r = None
              end).
    { intros n r Hn. apply list_lookup_singleton_Some in Hn as [-> <-].
      rewrite Nat.add_0_r. subst req.
      destruct (log st) as [|r0 lg0]; cbn in *.
      - by rewrite <- Hlen.
      - destruct (Z.eqb_spec (pages_fetched st) 0); [lia|done]. }
    destruct (get _ _) as [v|e]; [|intros [= <- <-]; by exists [req]].
    destruct (process_page st v) as [[r|[[rs tc] nxt]]|e];
      [intros [= <- <-]; by exists [req]| |intros [= <- <-]; by exists [req]].
    destruct (py_truthy nxt); [|intros [= <- <-]; by exists [req]].
    intros Hrec. apply IH in Hrec as (more & -> & Hmore); cbn [log pages_fetched].
    2:{ rewrite length_app. cbn. lia. }
    exists (req :: more). split; [by rewrite <- app_assoc|].
    intros [|n] r Hn.
    + apply (Hreq 0%nat). by injection Hn as <-.
    + cbn in Hn. apply Hmore in Hn. cbn [log] in Hn.
      rewrite length_app in Hn. cbn in Hn.
      replace (length (log st) + S n)%nat with (S (length (log st) + n)) by lia.
      replace (length (log st) + 1 + n)%nat with (S (length (log st) + n)) in Hn by lia.
      done.
Qed.


(** X5: the first call carries the URL of the resource type and the
    parameters built from the query; every later call carries none. *)
Theorem fetch_only_first_request_has_params query max_pages params r lg :
  build_params query = Ok params ->
  fetch query max_pages = Some (r, lg) ->
  forall n req, lg !! n = Some req ->
    match n with
    | O => req = {| req_url := PStr (fhir_base_url +:+ "/"
                                     +:+ ResourceType_value (resource_type query));
                    req_params := Some params |}
    | S _ => req_params req = None
    end.
Proof.
  intros Hparams. unfold fetch_real_fhir_data, fetch_with_fuel, fetch_try.
  rewrite Hparams.
  destruct (loop _ _ _) as [[out lg']|] eqn:Hloop; [|done].
  apply fetch_loop_log_shape in Hloop as (more & -> & Hmore); [|done].
  cbn [log initial_state app] in *.
  intros Hres. assert (lg = more) as ->.
  { destruct out as [[r'|st]|e]; [by injection Hres as _ <-| |by destruct e; injection Hres as _ <-].
    destruct (fhir_bundle st); by injection Hres as _ <-. }
  intros n req Hn. by apply Hmore in Hn.
Qed.

(** X3: with a bound below 1 no request is made and the caller gets the
    fallback result. *)
Theorem fetch_without_page_budget query max_pages :
  (max_pages <= 0)%Z ->
  fetch query max_pages = Some (_generate_fallback_results query, []).
Proof.
  intros Hmp. unfold fetch_real_fhir_data, fetch_with_fuel, fetch_try.
  destruct (build_params query) as [params|e]; [|by destruct e].
  replace (Z.to_nat max_pages) with 0%nat by lia. loop_step.
  cbn [initial_state current_url pages_fetched].
  replace (0 <? max_pages)%Z with false by (symmetry; apply Z.ltb_ge; lia).
  by rewrite andb_false_r.
Qed.

(** X4: a first answer that is a JSON object but not a Bundle is returned at
    once as a single record. *)
Theorem fetch_single_resource query max_pages params status d :
  (1 <= max_pages)%Z ->
  build_params query = Ok params ->
  http_get 0 {| req_url := PStr (fhir_base_url +:+ "/"
                                 +:+ ResourceType_value (resource_type query));
                req_params := Some params |}
  = HttpResponse status (Some (PDict d)) ->
  (400 <=? status)%Z && (status <? 600)%Z = false ->
  dict_get "resourceType" d <> Some (PStr "Bundle") ->
  fetch query max_pages
  = Some ({| total := PInt 1;
             resources := [PDict d];
             bundle := PDict [("resourceType", PStr "Bundle");
                              ("entry", PList [PDict [("resource", PDict d)]])];
             res_pages_fetched := None;
             error := None |},
          [{| req_url := PStr (fhir_base_url +:+ "/"
                               +:+ ResourceType_value (resource_type query));
              req_params := Some params |}]).
Proof.
  intros Hmp Hparams Hget Hstatus Hrt.
  unfold fetch_real_fhir_data, fetch_with_fuel, fetch_try. rewrite Hparams.
  destruct (Z.to_nat max_pages) as [|fuel] eqn:Hfuel; [lia|]. loop_step.
  cbn [initial_state current_url pages_fetched log current_params length py_truthy].
  rewrite first_url_truthy. replace (0 <? max_pages)%Z with true by (symmetry; apply Z.ltb_lt; lia).
  cbn [andb Z.eqb]. unfold get_json. rewrite Hget, Hstatus.
  unfold process_page. cbn [py_get mbind result_bind].
  assert (py_eq_str (from_option id PNone (dict_get "resourceType" d)) "Bundle" = false) as ->.
  { destruct (dict_get "resourceType" d) as [[]|]; try done. cbn.
    apply String.eqb_neq. congruence. }
  done.
Qed.

End FetcherRequests.

(** X8: [_get_next_link] gives the URL of the first link whose relation is
    "next", [None] when the bundle has no such link or no "link" member,
    and fails on a value that is not a JSON object. *)
Theorem get_next_link_first_next :
  (forall d, dict_get "link" d = None -> _get_next_link (PDict d) = Ok PNone) /\
  (forall d before nx after,
      dict_get "link" d = Some (PList (before ++ PDict nx :: after)%list) ->
      Forall (fun l => exists dl, l = PDict dl /\
                       dict_get "relation" dl <> Some (PStr "next")) before ->
      dict_get "relation" nx = Some (PStr "next") ->
      _get_next_link (PDict d) = Ok (from_option id PNone (dict_get "url" nx))) /\
  (forall d links,
      dict_get "link" d = Some (PList links) ->
      Forall (fun l => exists dl, l = PDict dl /\
                       dict_get "relation" dl <> Some (PStr "next")) links ->
      _get_next_link (PDict d) = Ok PNone) /\
  (forall v, (forall d, v <> PDict d) -> _get_next_link v = Raise AttributeError).
Proof.
  assert (Hskip : forall dl, dict_get "relation" dl <> Some (PStr "next") ->
            py_eq_str (from_option id PNone (dict_get "relation" dl)) "next" = false).
  { intros dl Hne. destruct (dict_get "relation" dl) as [[]|]; try done. cbn.
    apply String.eqb_neq. congruence. }
  assert (Hfind : forall before rest,
            Forall (fun l => exists dl, l = PDict dl /\
                             dict_get "relation" dl <> Some (PStr "next")) before ->
            find_next (before ++ rest)%list = find_next rest).
  { intros before rest Hbefore.
    induction Hbefore as [|l before (dl & -> & Hrel) _ IH]; [done|].
    cbn [app find_next py_get mbind result_bind]. by rewrite Hskip. }
  repeat split.
  - intros d Hd. unfold _get_next_link. cbn. by rewrite Hd.
  - intros d before nx after Hd Hbefore Hnx. unfold _get_next_link.
    unfold py_get at 1. rewrite Hd. cbn. rewrite Hfind by done.
    cbn. rewrite Hnx. done.
  - intros d links Hd Hlinks. unfold _get_next_link.
    unfold py_get at 1. rewrite Hd. cbn.
    rewrite <- (app_nil_r links), Hfind by done. done.
  - intros v Hv. destruct v; try done. by destruct (Hv d).
Qed.

(* ===================================================================== *)
(** ** Query builder: the parameter mapping *)
(* ===================================================================== *)


(** The parameters of a built query, key by key. *)
Lemma build_parameters_lookup now e k :
  parameters (build_fhir_query now e) !! k
  = if decide (k = "gender") then
      match gender e with
      | Some g => if str_truthy g then Some g else None
      | None => None
      end
    else if decide (k = "birthdate") then
      match age_filters e with
      | f :: _ => birthdate_of (year now) f
      | [] => None
      end
    else if decide (k = "_has:Condition:subject:code") then
      match conditions e with
      | [] => None
      | _ :: _ => Some (join "," (map code (conditions e)))
      end
    else None.
Proof.
  unfold build_fhir_query.
  destruct (String.eqb (intent e) "count"); cbn [parameters];
    destruct (gender e) as [g|]; try destruct (str_truthy g);
    destruct (age_filters e) as [|[[] v m|lo hi m] rest];
    destruct (conditions e) as [|c cs];
    cbn [birthdate_of];
    repeat case_decide; subst; simplify_map_eq; done.
Qed.


(** X10: a first filter with operator "=" sets no birth-date bound, whatever
    filters follow it. *)
Theorem build_exact_age_sets_no_birthdate now e v m rest :
  age_filters e = AgeValue OpEq v m :: rest ->
  parameters (build_fhir_query now e) !! "birthdate" = None.
Proof.
  intros Hf. rewrite build_parameters_lookup, Hf.
  by repeat (case_decide; try (discriminate || congruence)).
Qed.

(** X11: the intent never reaches the query: any two intents give the same
    query. *)
Theorem build_ignores_intent now e i j :
  build_fhir_query now (with_intent i e) = build_fhir_query now (with_intent j e).
Proof.
  unfold build_fhir_query, with_intent. cbn.
  by destruct (String.eqb i "count"), (String.eqb j "count").
Qed.

(* ===================================================================== *)
(** ** Entity extractor: intent, gender and conditions *)
(* ===================================================================== *)

(** X12: the detected intent is one of the three intents. *)
Theorem determine_intent_range doc :
  _determine_intent_with_spacy doc ∈ ["search"; "count"; "aggregate"].
Proof.
  unfold _determine_intent_with_spacy.
  assert (Hscan : forall tokens i, intent_scan doc tokens = Some i ->
                                   i ∈ ["search"; "count"; "aggregate"]).
  { induction tokens as [|token rest IH]; intros i; cbn [intent_scan]; [done|].
    repeat case_match; try apply IH; intros [= <-]; set_solver. }
  destruct (intent_scan doc (doc_tokens doc)) as [i|] eqn:Hi; [by eapply Hscan|].
  unfold intent_of_phrases. repeat case_match; set_solver.
Qed.

(** Whether a token carries a gender indicator, and which. *)
Lemma gender_scan_app pre rest :
  Forall (fun t => str_in (lemma_ t) male_indicators = false /\
                   str_in (text t) male_indicators = false /\
                   str_in (lemma_ t) female_indicators = false /\
                   str_in (text t) female_indicators = false) pre ->
  gender_scan (pre ++ rest) = gender_scan rest.
Proof.
  induction 1 as [|t pre (H1 & H2 & H3 & H4) _ IH]; [done|].
  cbn [app gender_scan]. by rewrite H1, H2, H3, H4.
Qed.

(** X13: the gender is that of the first token with an indicator, male
    indicators being tried first on each token; it is absent exactly when
    no token has an indicator. *)
Theorem extract_gender_first_indicator doc :
  (_extract_gender_with_spacy doc = None <->
   Forall (fun t => str_in (lemma_ t) male_indicators = false /\
                    str_in (text t) male_indicators = false /\
                    str_in (lemma_ t) female_indicators = false /\
                    str_in (text t) female_indicators = false) (doc_tokens doc)) /\
  (forall g, _extract_gender_with_spacy doc = Some g -> g = "male" \/ g = "female") /\
  (forall pre t rest,
      doc_tokens doc = (pre ++ t :: rest)%list ->
      Forall (fun t => str_in (lemma_ t) male_indicators = false /\
                       str_in (text t) male_indicators = false /\
                       str_in (lemma_ t) female_indicators = false /\
                       str_in (text t) female_indicators = false) pre ->
      (str_in (lemma_ t) male_indicators || str_in (text t) male_indicators = true ->
       _extract_gender_with_spacy doc = Some "male") /\
      (str_in (lemma_ t) male_indicators || str_in (text t) male_indicators = false ->
       str_in (lemma_ t) female_indicators || str_in (text t) female_indicators = true ->
       _extract_gender_with_spacy doc = Some "female")).
Proof.
  unfold _extract_gender_with_spacy. split; [|split].
  - induction (doc_tokens doc) as [|t rest IH]; cbn [gender_scan]; [by split|].
    destruct (str_in (lemma_ t) male_indicators) eqn:H1; cbn [orb].
    { split; [done|]. intros Hall. apply Forall_cons in Hall as [(? & _) _]. congruence. }
    destruct (str_in (text t) male_indicators) eqn:H2; cbn [orb].
    { split; [done|]. intros Hall. apply Forall_cons in Hall as [(_ & ? & _) _]. congruence. }
    destruct (str_in (lemma_ t) female_indicators) eqn:H3; cbn [orb].
    { split; [done|]. intros Hall. apply Forall_cons in Hall as [(_ & _ & ? & _) _]. congruence. }
    destruct (str_in (text t) female_indicators) eqn:H4; cbn [orb].
    { split; [done|]. intros Hall. apply Forall_cons in Hall as [(_ & _ & _ & ?) _]. congruence. }
    rewrite IH. split; [by constructor|]. intros Hall. by apply Forall_cons in Hall as [_ ?].
  - intros g. induction (doc_tokens doc) as [|t rest IH]; cbn [gender_scan]; [done|].
    repeat case_match; try apply IH; intros [= <-]; auto.
  - intros pre t rest -> Hpre. rewrite gender_scan_app by done. cbn [gender_scan].
    split.
    + by intros ->.
    + by intros -> ->.
Qed.

(** What the removal of duplicates keeps was in the list. *)
Lemma unique_by_code_subset seen conds c :
  c ∈ unique_by_code seen conds -> c ∈ conds.
Proof.
  revert seen. induction conds as [|c0 conds IH]; intros seen; cbn; [done|].
  destruct (decide (code c0 ∈ seen)).
  - intros Hc. apply elem_of_cons. right. by eapply IH.
  - intros Hc. apply elem_of_cons in Hc as [->|Hc]; [by left|].
    apply elem_of_cons. right. by eapply IH.
Qed.

(** Every code of the list is still there after the removal of duplicates. *)
Lemma unique_by_code_complete seen conds c0 :
  c0 ∈ conds -> code c0 ∉ seen ->
  exists c, c ∈ unique_by_code seen conds /\ code c = code c0.
Proof.
  revert seen. induction conds as [|c1 conds IH]; intros seen Hin Hseen; [by apply elem_of_nil in Hin|].
  cbn. apply elem_of_cons in Hin as [->|Hin].
  - destruct (decide (code c1 ∈ seen)); [done|]. exists c1. split; [by left|done].
  - destruct (decide (code c1 ∈ seen)); [by apply IH|].
    destruct (decide (code c0 = code c1)) as [Heq|Hne].
    + exists c1. split; [by left|done].
    + destruct (IH ({[code c1]} ∪ seen) Hin) as (c & Hc & Hcode).
      { intros Hu. apply elem_of_union in Hu as [Hu|Hu]; [|done].
        apply elem_of_singleton in Hu. done. }
      exists c. split; [by right|done].
Qed.

(** The entry a token is matched with. *)
Lemma match_token_entry doc token entries c :
  match_token doc token entries = Some c ->
  exists t m, (t, m) ∈ entries /\
    (c = condition_of t m "spacy_lemma_multiword" \/ c = condition_of t m "spacy_lemma").
Proof.
  induction entries as [|[t m] entries IH]; cbn [match_token]; [done|].
  destruct (1 <? length (String.words t))%nat.
  - destruct (forallb _ _).
    + intros [= <-]. exists t, m. split; [by left|by left].
    + intros Hc. destruct (IH Hc) as (t' & m' & Hin & Hor). exists t', m'.
      split; [by right|done].
  - destruct (_ || _).
    + intros [= <-]. exists t, m. split; [by left|by right].
    + intros Hc. destruct (IH Hc) as (t' & m' & Hin & Hor). exists t', m'.
      split; [by right|done].
Qed.

(** The keys of the dictionary are distinct: an entry is what its key
    looks up. *)
Lemma condition_mappings_lookup t m :
  (t, m) ∈ condition_mappings -> assoc_get t condition_mappings = Some m.
Proof.
  unfold condition_mappings. intros Hin.
  repeat (apply elem_of_cons in Hin as [[= -> ->]|Hin]; [reflexivity|]).
  by apply elem_of_nil in Hin.
Qed.

Lemma assoc_get_elem {A} t (m : A) d :
  assoc_get t d = Some m -> (t, m) ∈ d.
Proof.
  induction d as [|[k v] d IH]; cbn; [done|].
  destruct (String.eqb_spec k t) as [->|Hne].
  - intros [= ->]. by left.
  - intros Hd. right. by apply IH.
Qed.

(** X14: every extracted condition is an entry of the dictionary: its term is
    a key, and its code, system and display are those of the key. *)
Theorem extract_conditions_from_dictionary doc c :
  c ∈ _extract_conditions_with_spacy doc ->
  exists m,
    assoc_get (term c) condition_mappings = Some m /\
    code c = m_code m /\ system c = m_system m /\ display c = m_display m /\
    extraction_method c ∈ ["spacy_lemma"; "spacy_lemma_multiword"; "spacy_ner"].
Proof.
  unfold _extract_conditions_with_spacy. intros Hc.
  apply unique_by_code_subset in Hc. apply elem_of_app in Hc as [Hc|Hc].
  - apply list_elem_of_omap in Hc as (token & _ & Hm).
    apply match_token_entry in Hm as (t & m & Hin & [->| ->]);
      exists m; cbn; (split; [by apply condition_mappings_lookup|]);
      repeat split; apply list_elem_of_In; cbn; tauto.
  - unfold ner_conditions in Hc. apply list_elem_of_omap in Hc as (ent & _ & Hm).
    destruct (str_in (label_ ent) _); [|done].
    destruct (assoc_get _ _) as [m|] eqn:Hget; [|done]. injection Hm as <-.
    exists m. cbn. repeat split; [done|apply list_elem_of_In; cbn; tauto].
Qed.

(** The scan of the dictionary for one token, entry by entry. *)
Lemma match_token_condition_mappings doc token :
  match_token doc token condition_mappings
  = if String.eqb (lemma_ token) "diabetes" || String.eqb (text token) "diabetes"
    then Some (condition_of "diabetes"
                 (mkMapping "44054006" "http://snomed.info/sct" "Diabetes mellitus")
                 "spacy_lemma")
    else if String.eqb (lemma_ token) "diabetic" || String.eqb (text token) "diabetic"
    then Some (condition_of "diabetic"
                 (mkMapping "44054006" "http://snomed.info/sct" "Diabetes mellitus")
                 "spacy_lemma")
    else if String.eqb (lemma_ token) "hypertension"
            || String.eqb (text token) "hypertension"
    then Some (condition_of "hypertension"
                 (mkMapping "38341003" "http://snomed.info/sct" "Hypertension")
                 "spacy_lemma")
    else if str_in "heart" (doc_lemmas doc) && (str_in "disease" (doc_lemmas doc) && true)
    then Some (condition_of "heart disease"
                 (mkMapping "56265001" "http://snomed.info/sct" "Heart disease")
                 "spacy_lemma_multiword")
    else if String.eqb (lemma_ token) "asthma" || String.eqb (text token) "asthma"
    then Some (condition_of "asthma"
                 (mkMapping "195967001" "http://snomed.info/sct" "Asthma")
                 "spacy_lemma")
    else if String.eqb (lemma_ token) "depression" || String.eqb (text token) "depression"
    then Some (condition_of "depression"
                 (mkMapping "35489007" "http://snomed.info/sct" "Depressive disorder")
                 "spacy_lemma")
    else if String.eqb (lemma_ token) "cancer" || String.eqb (text token) "cancer"
    then Some (condition_of "cancer"
                 (mkMapping "363346000" "http://snomed.info/sct"
                            "Malignant neoplastic disease")
                 "spacy_lemma")
    else None.
Proof. reflexivity. Qed.

(** With "heart" and "disease" among the lemmas, a token is matched with
    one of the first four entries of the dictionary, whatever it is. *)
Lemma match_token_heart_disease doc token :
  str_in "heart" (doc_lemmas doc) = true ->
  str_in "disease" (doc_lemmas doc) = true ->
  exists c, match_token doc token condition_mappings = Some c /\
            term c ∈ ["diabetes"; "diabetic"; "hypertension"; "heart disease"] /\
            code c ∈ ["44054006"; "38341003"; "56265001"] /\
            (String.eqb (lemma_ token) "diabetes" || String.eqb (text token) "diabetes"
             || (String.eqb (lemma_ token) "diabetic" || String.eqb (text token) "diabetic")
             || (String.eqb (lemma_ token) "hypertension"
                 || String.eqb (text token) "hypertension") = false ->
             code c = "56265001").
Proof.
  intros Hh Hd. rewrite match_token_condition_mappings, Hh, Hd. cbn [andb].
  destruct (String.eqb (lemma_ token) "diabetes" || String.eqb (text token) "diabetes").
  { eexists. split; [done|]. repeat split; try (apply list_elem_of_In; cbn; tauto). done. }
  destruct (String.eqb (lemma_ token) "diabetic" || String.eqb (text token) "diabetic").
  { eexists. split; [done|]. repeat split; try (apply list_elem_of_In; cbn; tauto). done. }
  destruct (String.eqb (lemma_ token) "hypertension" || String.eqb (text token) "hypertension").
  { eexists. split; [done|]. repeat split; try (apply list_elem_of_In; cbn; tauto). done. }
  eexists. split; [done|]. repeat split; apply list_elem_of_In; cbn; tauto.
Qed.

(** X16: once "heart" and "disease" are both among the lemmas of a document
    without disease entities, only diabetes, hypertension and heart disease
    can be extracted: no token reaches the dictionary entries that follow
    "heart disease". *)
Theorem extract_conditions_multiword_shadows doc c :
  str_in "heart" (doc_lemmas doc) = true ->
  str_in "disease" (doc_lemmas doc) = true ->
  ents doc = [] ->
  c ∈ _extract_conditions_with_spacy doc ->
  term c ∈ ["diabetes"; "diabetic"; "hypertension"; "heart disease"] /\
  code c ∈ ["44054006"; "38341003"; "56265001"].
Proof.
  intros Hh Hd Hents Hc. unfold _extract_conditions_with_spacy, ner_conditions in Hc.
  rewrite Hents in Hc. cbn [omap list_omap] in Hc. rewrite app_nil_r in Hc.
  apply unique_by_code_subset in Hc.
  apply list_elem_of_omap in Hc as (token & _ & Hm).
  destruct (match_token_heart_disease doc token Hh Hd) as (c' & Hc' & Hterm & Hcode & _).
  rewrite Hm in Hc'. by injection Hc' as <-.
Qed.

(** X17: the words of a multi-word term need not be adjacent nor in order:
    as soon as "heart" and "disease" are lemmas of the document and some
    token is neither diabetes, diabetic nor hypertension, heart disease is
    extracted. *)
Theorem extract_conditions_multiword_anywhere doc token :
  str_in "heart" (doc_lemmas doc) = true ->
  str_in "disease" (doc_lemmas doc) = true ->
  token ∈ doc_tokens doc ->
  String.eqb (lemma_ token) "diabetes" || String.eqb (text token) "diabetes"
  || (String.eqb (lemma_ token) "diabetic" || String.eqb (text token) "diabetic")
  || (String.eqb (lemma_ token) "hypertension"
      || String.eqb (text token) "hypertension") = false ->
  "56265001" ∈ map code (_extract_conditions_with_spacy doc).
Proof.
  intros Hh Hd Hin Htoken.
  destruct (match_token_heart_disease doc token Hh Hd) as (c' & Hc' & _ & _ & Hcode).
  specialize (Hcode Htoken).
  destruct (unique_by_code_complete ∅
              (omap (fun token => match_token doc token condition_mappings) (doc_tokens doc)
               ++ ner_conditions doc)%list c') as (c & Hc & Heq).
  - apply elem_of_app. left. apply list_elem_of_omap. by exists token.
  - apply not_elem_of_empty.
  - apply list_elem_of_fmap. exists c. split; [congruence|done].
Qed.

(** X18: in a document where "heart" and "disease" are not both lemmas, a
    token whose lemma or text is a single-word term of the dictionary gives
    a condition: the extracted codes contain the code of the token's lemma
    or of its text. *)
Theorem extract_conditions_single_word doc token t :
  str_in "heart" (doc_lemmas doc) && str_in "disease" (doc_lemmas doc) = false ->
  token ∈ doc_tokens doc ->
  t ∈ ["diabetes"; "diabetic"; "hypertension"; "asthma"; "depression"; "cancer"] ->
  lemma_ token = t \/ text token = t ->
  exists m,
    (assoc_get (lemma_ token) condition_mappings = Some m \/
     assoc_get (text token) condition_mappings = Some m) /\
    m_code m ∈ map code (_extract_conditions_with_spacy doc).
Proof.
  intros Hmulti Hin Ht Htoken.
  assert (Hmatch : exists c m,
            match_token doc token condition_mappings = Some c /\
            (assoc_get (lemma_ token) condition_mappings = Some m \/
             assoc_get (text token) condition_mappings = Some m) /\
            code c = m_code m).
  { rewrite match_token_condition_mappings. rewrite andb_true_r, Hmulti.
    destruct (String.eqb_spec (lemma_ token) "diabetes") as [Hl|Hz1];
      [eexists _, _; split; [done|]; split; [left; by rewrite Hl|done]|].
    destruct (String.eqb_spec (text token) "diabetes") as [Hl|Hz2];
      [eexists _, _; split; [done|]; split; [right; by rewrite Hl|done]|].
    destruct (String.eqb_spec (lemma_ token) "diabetic") as [Hl|Hz3];
      [eexists _, _; split; [done|]; split; [left; by rewrite Hl|done]|].
    destruct (String.eqb_spec (text token) "diabetic") as [Hl|Hz4];
      [eexists _, _; split; [done|]; split; [right; by rewrite Hl|done]|].
    destruct (String.eqb_spec (lemma_ token) "hypertension") as [Hl|Hz5];
      [eexists _, _; split; [done|]; split; [left; by rewrite Hl|done]|].
    destruct (String.eqb_spec (text token) "hypertension") as [Hl|Hz6];
      [eexists _, _; split; [done|]; split; [right; by rewrite Hl|done]|].
    destruct (String.eqb_spec (lemma_ token) "asthma") as [Hl|Hn1];
      [eexists _, _; split; [done|]; split; [left; by rewrite Hl|done]|].
    destruct (String.eqb_spec (text token) "asthma") as [Hl|Hn2];
      [eexists _, _; split; [done|]; split; [right; by rewrite Hl|done]|].
    destruct (String.eqb_spec (lemma_ token) "depression") as [Hl|Hn3];
      [eexists _, _; split; [done|]; split; [left; by rewrite Hl|done]|].
    destruct (String.eqb_spec (text token) "depression") as [Hl|Hn4];
      [eexists _, _; split; [done|]; split; [right; by rewrite Hl|done]|].
    destruct (String.eqb_spec (lemma_ token) "cancer") as [Hl|Hn5];
      [eexists _, _; split; [done|]; split; [left; by rewrite Hl|done]|].
    destruct (String.eqb_spec (text token) "cancer") as [Hl|Hn6];
      [eexists _, _; split; [done|]; split; [right; by rewrite Hl|done]|].
    exfalso. apply list_elem_of_In in Ht. cbn in Ht.
    destruct Htoken as [Heq|Heq]; subst t; intuition congruence. }
  destruct Hmatch as (c0 & m & Hm & Hget & Hcode). exists m. split; [done|].
  destruct (unique_by_code_complete ∅
              (omap (fun token => match_token doc token condition_mappings) (doc_tokens doc)
               ++ ner_conditions doc)%list c0) as (c & Hc & Heq).
  - apply elem_of_app. left. apply list_elem_of_omap. by exists token.
  - apply not_elem_of_empty.
  - apply list_elem_of_fmap. exists c. split; [congruence|done].
Qed.

(* ===================================================================== *)
(** ** Entity extractor: numeric mentions *)
(* ===================================================================== *)

(** The mentions of a scan started at index [i]: each one describes a
    numeric token, at its index. *)
Lemma numbers_scan_sound doc i tokens ni :
  ni ∈ numbers_scan doc i tokens ->
  exists j token,
    tokens !! j = Some token /\
    position ni = (i + j)%nat /\
    like_num token || String.eqb (pos_ token) "NUM" = true /\
    value ni = text token /\
    numeric_value ni = _convert_to_number (text token) /\
    dependencies ni = children token /\
    context ni
    = join " " (context_words_of doc (i + j) (Nat.max 0 (i + j - 2))
                  (Nat.min (length (doc_tokens doc)) (i + j + 3))).
Proof.
  revert i. induction tokens as [|token rest IH]; intros i; cbn [numbers_scan];
    [intros H; by apply elem_of_nil in H|].
  destruct (like_num token || String.eqb (pos_ token) "NUM") eqn:Hnum.
  - intros Hin. apply elem_of_cons in Hin as [->|Hin].
    + exists 0%nat, token. cbn. rewrite Nat.add_0_r. done.
    + destruct (IH _ Hin) as (j & t & Hj & Hpos & Hrest).
      exists (S j), t. split; [done|]. split; [lia|].
      by replace (i + S j)%nat with (S i + j)%nat by lia.
  - intros Hin. destruct (IH _ Hin) as (j & t & Hj & Hpos & Hrest).
    exists (S j), t. split; [done|]. split; [lia|].
    by replace (i + S j)%nat with (S i + j)%nat by lia.
Qed.

Lemma numbers_scan_complete doc i tokens j token :
  tokens !! j = Some token ->
  like_num token || String.eqb (pos_ token) "NUM" = true ->
  exists ni, ni ∈ numbers_scan doc i tokens /\ position ni = (i + j)%nat.
Proof.
  revert i j. induction tokens as [|t rest IH]; intros i j Hj Hnum; [done|].
  cbn [numbers_scan]. destruct j as [|j]; cbn in Hj.
  - injection Hj as ->. rewrite Hnum. eexists. split; [by left|]. cbn. lia.
  - destruct (IH (S i) j Hj Hnum) as (ni & Hin & Hpos).
    exists ni. split; [|lia].
    destruct (like_num t || String.eqb (pos_ t) "NUM"); [by right|done].
Qed.

Lemma numbers_scan_sorted doc i tokens :
  StronglySorted lt (position <$> numbers_scan doc i tokens) /\
  Forall (fun p => i <= p) (position <$> numbers_scan doc i tokens).
Proof.
  revert i. induction tokens as [|t rest IH]; intros i; cbn [numbers_scan].
  - split; constructor.
  - destruct (IH (S i)) as [Hs Hf].
    assert (Hf' : Forall (fun p => i <= p) (position <$> numbers_scan doc (S i) rest)).
    { eapply Forall_impl; [exact Hf|]. cbn. lia. }
    destruct (like_num t || String.eqb (pos_ t) "NUM"); [|done]. cbn. split.
    + constructor; [done|]. eapply Forall_impl; [exact Hf|]. cbn. lia.
    + by constructor.
Qed.

(** X19: the numeric mentions are the numeric tokens of the document, one
    mention per token, in token order: each mention holds the index, text,
    value and children of its token, and the indices increase strictly. *)
Theorem extract_numbers_are_numeric_tokens doc :
  (forall ni, ni ∈ _extract_numbers_with_context doc ->
     exists token,
       doc_tokens doc !! position ni = Some token /\
       like_num token || String.eqb (pos_ token) "NUM" = true /\
       value ni = text token /\
       numeric_value ni = _convert_to_number (text token) /\
       dependencies ni = children token) /\
  (forall j token,
     doc_tokens doc !! j = Some token ->
     like_num token || String.eqb (pos_ token) "NUM" = true ->
     exists ni, ni ∈ _extract_numbers_with_context doc /\ position ni = j) /\
  StronglySorted lt (position <$> _extract_numbers_with_context doc).
Proof.
  unfold _extract_numbers_with_context. split; [|split].
  - intros ni Hin.
    apply numbers_scan_sound in Hin as (j & token & Hj & Hpos & Hn & Hv & Hnv & Hd & _).
    exists token. by rewrite Hpos.
  - intros j token Hj Hnum. by eapply (numbers_scan_complete doc 0).
  - apply numbers_scan_sorted.
Qed.

(** The texts of a run of tokens that does not contain the index [i]. *)
Lemma context_words_run doc i a k :
  (a + k <= length (doc_tokens doc))%nat ->
  (i < a \/ a + k <= i)%nat ->
  omap (fun j => if decide (j = i) then None else text <$> doc_tokens doc !! j) (seq a k)
  = text <$> take k (drop a (doc_tokens doc)).
Proof.
  revert a. induction k as [|k IH]; intros a Hlen Hi; [by rewrite take_0|].
  cbn [seq omap list_omap].
  destruct (decide (a = i)) as [->|_]; [lia|].
  destruct (lookup_lt_is_Some_2 (doc_tokens doc) a) as [x Hx]; [lia|].
  rewrite Hx. cbn. rewrite (drop_S _ _ _ Hx). cbn. f_equal. apply IH; lia.
Qed.

(** The window of context words around the index [i]. *)
Lemma context_words_window doc i :
  (i < length (doc_tokens doc))%nat ->
  context_words_of doc i (Nat.max 0 (i - 2)) (Nat.min (length (doc_tokens doc)) (i + 3))
  = ((text <$> drop (i - 2) (take i (doc_tokens doc)))
     ++ (text <$> take 2 (drop (S i) (doc_tokens doc))))%list /\
  (length (context_words_of doc i (Nat.max 0 (i - 2))
             (Nat.min (length (doc_tokens doc)) (i + 3))) <= 4)%nat.
Proof.
  intros Hi.
  assert (Heq : context_words_of doc i (Nat.max 0 (i - 2))
                  (Nat.min (length (doc_tokens doc)) (i + 3))
    = ((text <$> drop (i - 2) (take i (doc_tokens doc)))
       ++ (text <$> take 2 (drop (S i) (doc_tokens doc))))%list).
  { unfold context_words_of.
    replace (Nat.max 0 (i - 2)) with (i - 2)%nat by lia.
    replace (Nat.min (length (doc_tokens doc)) (i + 3) - (i - 2))%nat
      with ((i - (i - 2))
            + (1 + (Nat.min (length (doc_tokens doc)) (i + 3) - S i)))%nat by lia.
    rewrite seq_app, omap_app. replace (i - 2 + (i - (i - 2)))%nat with i by lia.
    rewrite (seq_app 1), omap_app. cbn [seq omap list_omap].
    destruct (decide (i = i)); [|done]. cbn [app].
    rewrite (context_words_run doc i (i - 2) (i - (i - 2))) by lia.
    rewrite (context_words_run doc i (i + 1)) by lia.
    f_equal.
    - f_equal. rewrite take_drop_commute. f_equal. f_equal. lia.
    - f_equal. replace (i + 1)%nat with (S i) by lia.
      apply list_eq. intros j. rewrite !lookup_take, !lookup_drop.
      repeat case_decide; try done; try lia.
      symmetry. apply lookup_ge_None. lia. }
  split; [exact Heq|]. rewrite Heq, length_app, !length_fmap, length_drop, !length_take.
  lia.
Qed.

(** X20: the context of a numeric mention is made of the texts of the two
    tokens before its token and the two tokens after it, as far as the
    document has them, joined by spaces: at most four words, the token
    itself left out. *)
Theorem extract_numbers_context_window doc ni :
  ni ∈ _extract_numbers_with_context doc ->
  exists words,
    words = ((text <$> drop (position ni - 2) (take (position ni) (doc_tokens doc)))
             ++ (text <$> take 2 (drop (S (position ni)) (doc_tokens doc))))%list /\
    context ni = join " " words /\
    (length words <= 4)%nat.
Proof.
  intros Hin. unfold _extract_numbers_with_context in Hin.
  apply numbers_scan_sound in Hin as (j & token & Hj & Hpos & _ & _ & _ & _ & Hctx).
  cbn in Hpos, Hctx. rewrite <- Hpos in Hctx.
  destruct (context_words_window doc (position ni)) as [Heq Hlen].
  { rewrite Hpos. by eapply lookup_lt_Some. }
  eexists. split; [reflexivity|]. rewrite <- Heq. done.
Qed.

(* ===================================================================== *)
(** ** Entity extractor: age filters *)
(* ===================================================================== *)

(** The partner found for a "between" mention is another mention of
    non-zero value, and the range is ordered. *)
Lemma range_with_other_sound number_info nv others f :
  range_with_other number_info nv others = Some f ->
  exists other ov,
    other ∈ others /\ other <> number_info /\
    numeric_value other = Some ov /\ ov <> 0%Z /\
    f = AgeRange (Z.min nv ov) (Z.max nv ov) "spacy_context_range".
Proof.
  induction others as [|o others IH]; cbn [range_with_other]; [done|].
  destruct (numeric_value o) as [ov|] eqn:Hov.
  - destruct (bool_decide (o <> number_info)) eqn:Hne; cbn [andb].
    + destruct (Z.eqb_spec ov 0) as [->|Hz]; cbn [negb].
      * intros Hf. destruct (IH Hf) as (o' & ov' & Hin & Hrest).
        exists o', ov'. split; [by right|done].
      * intros [= <-]. exists o, ov. apply bool_decide_eq_true in Hne.
        split; [by left|done].
    + intros Hf. destruct (IH Hf) as (o' & ov' & Hin & Hrest).
      exists o', ov'. split; [by right|done].
  - intros Hf. destruct (IH Hf) as (o' & ov' & Hin & Hrest).
    exists o', ov'. split; [by right|done].
Qed.

Lemma context_filters_sound numbers todo f :
  f ∈ context_filters numbers todo ->
  exists ni nv,
    ni ∈ todo /\ numeric_value ni = Some nv /\ nv <> 0%Z /\
    match f with
    | AgeValue op v m =>
        v = nv /\ m = "spacy_context" /\
        (op = OpGt /\
         any_in ["over"; "above"; "more than"; "greater"] (lower (context ni)) = true
         \/
         op = OpLt /\
         any_in ["over"; "above"; "more than"; "greater"] (lower (context ni)) = false /\
         any_in ["under"; "below"; "less than"; "younger"] (lower (context ni)) = true)
    | AgeRange lo hi m =>
        m = "spacy_context_range" /\
        contains "between" (lower (context ni)) = true /\
        exists other ov,
          other ∈ numbers /\ other <> ni /\ numeric_value other = Some ov /\
          ov <> 0%Z /\ lo = Z.min nv ov /\ hi = Z.max nv ov
    end.
Proof.
  induction todo as [|ni todo IH]; cbn [context_filters];
    [intros H; by apply elem_of_nil in H|].
  destruct (numeric_value ni) as [nv|] eqn:Hnv;
    [|intros Hin; destruct (IH Hin) as (ni0 & nv0 & Hni & Hr); exists ni0, nv0; split; [by right|exact Hr]].
  destruct (Z.eqb_spec nv 0) as [->|Hz];
    [intros Hin; destruct (IH Hin) as (ni0 & nv0 & Hni & Hr); exists ni0, nv0; split; [by right|exact Hr]|].
  destruct (any_in ["over"; "above"; "more than"; "greater"] (lower (context ni))) eqn:Hgt.
  { intros Hin. apply elem_of_cons in Hin as [->|Hin]; [|destruct (IH Hin) as (ni0 & nv0 & Hni & Hr); exists ni0, nv0; split; [by right|exact Hr]].
    exists ni, nv. split; [by left|]. repeat split; auto. }
  destruct (any_in ["under"; "below"; "less than"; "younger"] (lower (context ni))) eqn:Hlt.
  { intros Hin. apply elem_of_cons in Hin as [->|Hin]; [|destruct (IH Hin) as (ni0 & nv0 & Hni & Hr); exists ni0, nv0; split; [by right|exact Hr]].
    exists ni, nv. split; [by left|]. repeat split; auto. }
  destruct (contains "between" (lower (context ni))) eqn:Hbt;
    [|intros Hin; destruct (IH Hin) as (ni0 & nv0 & Hni & Hr); exists ni0, nv0; split; [by right|exact Hr]].
  destruct (range_with_other ni nv numbers) as [f0|] eqn:Hrange;
    [|intros Hin; destruct (IH Hin) as (ni0 & nv0 & Hni & Hr); exists ni0, nv0; split; [by right|exact Hr]].
  intros Hin. apply elem_of_cons in Hin as [->|Hin]; [|destruct (IH Hin) as (ni0 & nv0 & Hni & Hr); exists ni0, nv0; split; [by right|exact Hr]].
  apply range_with_other_sound in Hrange as (other & ov & Ho & Hne & Hov & Hoz & ->).
  exists ni, nv. split; [by left|]. repeat split; auto.
  exists other, ov. done.
Qed.

Lemma regex_filters_method s fs f :
  regex_filters s = Ok fs ->
  f ∈ fs ->
  match f with
  | AgeValue _ _ m => m = "regex_fallback"
  | AgeRange _ _ m => m = "regex_fallback"
  end.
Proof.
  unfold regex_filters, mbind, result_bind.
  assert (Hage : forall fs0,
            match search_age s with
            | Some (group1, group2) =>
                match int_of_group group2 with
                | Ok age => Ok [AgeValue (operator_of_keyword group1) age "regex_fallback"]
                | Raise e => Raise e
                end
            | None => Ok []
            end = Ok fs0 ->
            forall f0, f0 ∈ fs0 ->
              match f0 with
              | AgeValue _ _ m => m = "regex_fallback"
              | AgeRange _ _ m => m = "regex_fallback"
              end).
  { intros fs0 Hfs0 f0 Hf0. destruct (search_age s) as [[kw ds]|].
    - destruct (int_of_group ds) as [age|e]; [|done]. injection Hfs0 as <-.
      by apply list_elem_of_singleton in Hf0 as ->.
    - injection Hfs0 as <-. by apply elem_of_nil in Hf0. }
  destruct (match search_age s with Some _ => _ | None => _ end) as [fs0|e]; [|done].
  specialize (Hage fs0 eq_refl).
  destruct (search_range s) as [[g1 g2]|].
  - destruct (int_of_group g1) as [lo|e]; [|done].
    destruct (int_of_group g2) as [hi|e]; [|done].
    intros [= <-] Hin. apply elem_of_app in Hin as [Hin|Hin]; [by apply Hage|].
    by apply list_elem_of_singleton in Hin as ->.
  - intros [= <-]. apply Hage.
Qed.

(** X22: a filter comes either from the regex fallback, and then the context
    analysis found nothing, or from a mention of non-zero value whose
    context holds the cue of the filter; a range of the context analysis is
    ordered and pairs two distinct mentions of non-zero value. *)
Theorem extract_age_filters_sound doc numbers fs f :
  _extract_age_filters_with_spacy doc numbers = Ok fs ->
  f ∈ fs ->
  (context_filters numbers numbers = [] /\
   match f with
   | AgeValue _ _ m => m = "regex_fallback"
   | AgeRange _ _ m => m = "regex_fallback"
   end) \/
  (exists ni nv,
     ni ∈ numbers /\ numeric_value ni = Some nv /\ nv <> 0%Z /\
     match f with
     | AgeValue op v m =>
         v = nv /\ m = "spacy_context" /\
         (op = OpGt /\
          any_in ["over"; "above"; "more than"; "greater"] (lower (context ni)) = true
          \/
          op = OpLt /\
          any_in ["over"; "above"; "more than"; "greater"] (lower (context ni)) = false /\
          any_in ["under"; "below"; "less than"; "younger"] (lower (context ni)) = true)
     | AgeRange lo hi m =>
         m = "spacy_context_range" /\
         contains "between" (lower (context ni)) = true /\
         (lo <= hi)%Z /\
         exists other ov,
           other ∈ numbers /\ other <> ni /\ numeric_value other = Some ov /\
           ov <> 0%Z /\ lo = Z.min nv ov /\ hi = Z.max nv ov
     end).
Proof.
  unfold _extract_age_filters_with_spacy.
  destruct (context_filters numbers numbers) as [|f0 fs0] eqn:Hctx.
  - intros Hfs Hin. left. split; [done|]. by eapply regex_filters_method.
  - intros [= <-] Hin. right. rewrite <- Hctx in Hin.
    apply context_filters_sound in Hin as (ni & nv & Hni & Hnv & Hz & Hf).
    exists ni, nv. repeat split; try done.
    destruct f as [op v m|lo hi m]; [done|].
    destruct Hf as (Hm & Hb & other & ov & Ho & Hne & Hov & Hoz & -> & ->).
    repeat split; try done; [lia|]. by exists other, ov.
Qed.

Lemma context_filters_complete numbers todo ni nv :
  ni ∈ todo -> numeric_value ni = Some nv -> nv <> 0%Z ->
  (any_in ["over"; "above"; "more than"; "greater"] (lower (context ni)) = true ->
   AgeValue OpGt nv "spacy_context" ∈ context_filters numbers todo) /\
  (any_in ["over"; "above"; "more than"; "greater"] (lower (context ni)) = false ->
   any_in ["under"; "below"; "less than"; "younger"] (lower (context ni)) = true ->
   AgeValue OpLt nv "spacy_context" ∈ context_filters numbers todo).
Proof.
  intros Hin Hnv Hz.
  induction todo as [|n0 todo IH]; [by apply elem_of_nil in Hin|].
  assert (Hskip : forall f, f ∈ context_filters numbers todo ->
                            f ∈ context_filters numbers (n0 :: todo)).
  { intros f Hf. cbn [context_filters]. repeat case_match; try done; by right. }
  apply elem_of_cons in Hin as [<-|Hin].
  - cbn [context_filters]. rewrite Hnv.
    destruct (Z.eqb_spec nv 0) as [|_]; [done|]. split.
    + intros ->. by left.
    + intros -> ->. by left.
  - destruct (IH Hin) as [Hgt Hlt]. split; intros; apply Hskip; auto.
Qed.

(** X23: a mention of non-zero value whose context holds a greater-than cue
    ("over", "above", "more than", "greater") gives a greater-than filter
    of its value; without such a cue, a less-than cue ("under", "below",
    "less than", "younger") gives a less-than filter.  In both cases the
    extraction returns. *)
Theorem extract_age_filters_cue doc numbers ni nv :
  ni ∈ numbers -> numeric_value ni = Some nv -> nv <> 0%Z ->
  (any_in ["over"; "above"; "more than"; "greater"] (lower (context ni)) = true ->
   exists fs, _extract_age_filters_with_spacy doc numbers = Ok fs /\
              AgeValue OpGt nv "spacy_context" ∈ fs) /\
  (any_in ["over"; "above"; "more than"; "greater"] (lower (context ni)) = false ->
   any_in ["under"; "below"; "less than"; "younger"] (lower (context ni)) = true ->
   exists fs, _extract_age_filters_with_spacy doc numbers = Ok fs /\
              AgeValue OpLt nv "spacy_context" ∈ fs).
Proof.
  intros Hin Hnv Hz.
  destruct (context_filters_complete numbers numbers ni nv Hin Hnv Hz) as [Hgt Hlt].
  unfold _extract_age_filters_with_spacy. split.
  - intros Hc. specialize (Hgt Hc).
    destruct (context_filters numbers numbers) as [|f0 fs0];
      [by apply elem_of_nil in Hgt|by eexists].
  - intros Hc1 Hc2. specialize (Hlt Hc1 Hc2).
    destruct (context_filters numbers numbers) as [|f0 fs0];
      [by apply elem_of_nil in Hlt|by eexists].
Qed.

(* ===================================================================== *)
(** ** Decimal numerals and the regex fallback *)
(* ===================================================================== *)

(** The decimal digits are digits of value below ten, and no whitespace. *)
Lemma pretty_N_char_digit d :
  (d < 10)%N ->
  digit_val (pretty_N_char d) = Some (Z.of_N d) /\
  py_isspace (pretty_N_char d) = false.
Proof.
  intros Hd.
  destruct d as [|p]; [done|].
  do 4 (destruct p as [p|p|]; try lia; try done).
Qed.

(** Nor are they whitespace or a sign for [int]. *)
Lemma pretty_N_char_int d :
  (d < 10)%N ->
  int_isspace (pretty_N_char d) = false /\
  pretty_N_char d <> "-"%char /\ pretty_N_char d <> "+"%char.
Proof.
  intros Hd.
  destruct d as [|p]; [done|].
  do 4 (destruct p as [p|p|]; try lia; try done).
Qed.

Lemma pretty_N_go_app x s r : pretty_N_go x s +:+ r = pretty_N_go x (s +:+ r).
Proof.
  revert s. induction (N.lt_wf_0 x) as [x _ IH]; intros s.
  destruct (decide (0 < x)%N) as [Hx|Hx].
  - rewrite (pretty_N_go_step x s), (pretty_N_go_step x (s +:+ r)) by done.
    rewrite IH by (by apply N.div_lt). reflexivity.
  - assert (x = 0%N) as -> by lia. by rewrite !pretty_N_go_0.
Qed.

Lemma pretty_N_go_head x s :
  (0 < x)%N ->
  exists d s', (d < 10)%N /\ pretty_N_go x s = String (pretty_N_char d) s'.
Proof.
  revert s. induction (N.lt_wf_0 x) as [x _ IH]; intros s Hx.
  rewrite pretty_N_go_step by done.
  destruct (N.eq_0_gt_0_cases (x `div` 10)) as [Hd|Hd].
  - rewrite Hd, pretty_N_go_0.
    eexists _, _. split; [|done]. by apply N.mod_lt.
  - apply IH; [by apply N.div_lt|done].
Qed.

Lemma string_app_cons c s r : String c s +:+ r = String c (s +:+ r).
Proof. reflexivity. Qed.

Lemma string_app_nil_r s : s +:+ "" = s.
Proof. induction s as [|c s IH]; [done|]. by rewrite string_app_cons, IH. Qed.

Lemma pretty_of_N_cases x r :
  pretty (Z.of_N x) +:+ r = String "0" r /\ x = 0%N \/
  pretty (Z.of_N x) +:+ r = pretty_N_go x r /\ (0 < x)%N.
Proof.
  destruct x as [|p]; [by left|]. right. split; [|done].
  change (pretty (Z.of_N (N.pos p))) with (pretty_N_go (N.pos p) "").
  by rewrite pretty_N_go_app.
Qed.

(** The run of digits that [pretty] wrote is read back as a group. *)
Lemma digits_run_pretty_go x s :
  digits_run (pretty_N_go x s)
  = (pretty_N_go x (fst (digits_run s)), snd (digits_run s)).
Proof.
  revert s. induction (N.lt_wf_0 x) as [x _ IH]; intros s.
  destruct (decide (0 < x)%N) as [Hx|Hx].
  - rewrite !(pretty_N_go_step x) by done. rewrite IH by (by apply N.div_lt).
    cbn [digits_run].
    destruct (pretty_N_char_digit (x `mod` 10)) as [-> _]; [by apply N.mod_lt|].
    by destruct (digits_run s).
  - assert (x = 0%N) as -> by lia. rewrite !pretty_N_go_0. by destruct (digits_run s).
Qed.

Lemma digits_run_stop s :
  match s with String c _ => digit_val c = None | EmptyString => True end ->
  digits_run s = ("", s).
Proof.
  destruct s as [|c s]; cbn [digits_run]; [done|]. by intros ->.
Qed.

Lemma digits1_pretty x rest :
  match rest with String c _ => digit_val c = None | EmptyString => True end ->
  digits1 (pretty (Z.of_N x) +:+ rest) = Some (pretty (Z.of_N x), rest).
Proof.
  intros Hrest. unfold digits1.
  destruct (pretty_of_N_cases x rest) as [[-> ->]|[-> Hx]].
  - cbn [digits_run]. change (digit_val "0") with (Some 0%Z). cbv iota.
    by rewrite (digits_run_stop rest).
  - rewrite digits_run_pretty_go, (digits_run_stop rest) by done. cbn [fst snd].
    destruct (pretty_of_N_cases x "") as [[_ ->]|[Heq _]]; [lia|].
    rewrite string_app_nil_r in Heq. rewrite Heq.
    by destruct (pretty_N_go_head x "" Hx) as (d & s' & _ & ->).
Qed.

(** Reading an [int] literal that [pretty] wrote. *)
Lemma int_digits_pretty_go x s b :
  (0 < x)%N ->
  int_digits 0 b (pretty_N_go x s) = int_digits (Z.of_N x) true s.
Proof.
  revert s b. induction (N.lt_wf_0 x) as [x _ IH]; intros s b Hx.
  rewrite pretty_N_go_step by done.
  destruct (N.eq_0_gt_0_cases (x `div` 10)) as [Hd|Hd].
  - rewrite Hd, pretty_N_go_0. cbn [int_digits].
    destruct (pretty_N_char_digit (x `mod` 10)) as [-> _]; [by apply N.mod_lt|].
    f_equal. rewrite (N.div_mod x 10) at 2 by done. lia.
  - rewrite IH by (done || by apply N.div_lt). cbn [int_digits].
    destruct (pretty_N_char_digit (x `mod` 10)) as [-> _]; [by apply N.mod_lt|].
    f_equal. rewrite (N.div_mod x 10) at 3 by done. lia.
Qed.

(** Every character [pretty] wrote counts as a digit. *)
Lemma count_digits_pretty_go x s :
  (count_digits (pretty_N_go x s) - count_digits s
   = Z.of_nat (String.length (pretty_N_go x s)) - Z.of_nat (String.length s))%Z.
Proof.
  revert s. induction (N.lt_wf_0 x) as [x _ IH]; intros s.
  destruct (decide (0 < x)%N) as [Hx|Hx].
  - rewrite !(pretty_N_go_step x) by done.
    specialize (IH (x `div` 10)%N (N.div_lt x 10 Hx eq_refl)
                   (String (pretty_N_char (x `mod` 10)) s)).
    cbn [count_digits String.length] in IH.
    destruct (pretty_N_char_digit (x `mod` 10)) as [Hd _]; [by apply N.mod_lt|].
    rewrite Hd in IH. lia.
  - assert (x = 0%N) as -> by lia. rewrite !pretty_N_go_0. lia.
Qed.

Lemma rev_app_rev_app s a b :
  String.rev_app (String.rev_app s a) b = String.rev_app a (s +:+ b).
Proof.
  revert a b. induction s as [|c s IH]; intros a b; [done|].
  cbn [String.rev_app]. by rewrite IH.
Qed.

Lemma rev_app_app p q acc :
  String.rev_app (p +:+ q) acc = String.rev_app q (String.rev_app p acc).
Proof.
  revert acc. induction p as [|c p IH]; intros acc; [done|].
  rewrite string_app_cons. cbn [String.rev_app]. by rewrite IH.
Qed.

(** [int] has nothing to skip round a text that neither starts nor ends
    with whitespace. *)
Lemma int_strip_id c0 s0 p c1 :
  int_isspace c0 = false -> int_isspace c1 = false ->
  String c0 s0 = p +:+ String c1 "" ->
  int_strip (String c0 s0) = String c0 s0.
Proof.
  intros H0 H1 Heq. unfold int_strip. cbn [int_lstrip]. rewrite H0.
  assert (Hrev : String.rev (String c0 s0) = String c1 (String.rev p)).
  { rewrite Heq. unfold String.rev. by rewrite rev_app_app. }
  rewrite Hrev. cbn [int_lstrip]. rewrite H1, <- Hrev.
  unfold String.rev. by rewrite rev_app_rev_app, string_app_nil_r.
Qed.

Lemma pretty_N_go_last x :
  (0 < x)%N ->
  pretty_N_go x "" = pretty_N_go (x `div` 10) "" +:+ String (pretty_N_char (x `mod` 10)) "".
Proof.
  intros Hx. by rewrite pretty_N_go_step, pretty_N_go_app.
Qed.

(** [int] of a decimal numeral: its value when it has at most 4300 digits,
    [ValueError] beyond. *)
Lemma int_of_group_pretty x :
  int_of_group (pretty (Z.of_N x))
  = if decide (Z.of_nat (String.length (pretty (Z.of_N x))) <= int_max_str_digits)%Z
    then Ok (Z.of_N x) else Raise ValueError.
Proof.
  destruct x as [|p]; [reflexivity|].
  change (pretty (Z.of_N (N.pos p))) with (pretty_N_go (N.pos p) "").
  destruct (pretty_N_go_head (N.pos p) "") as (d & s' & Hd & Heq); [done|].
  destruct (pretty_N_char_int d Hd) as (Hsp & Hminus & Hplus).
  assert (Hstrip : int_strip (pretty_N_go (N.pos p) "") = pretty_N_go (N.pos p) "").
  { rewrite Heq. eapply int_strip_id; [done| |].
    - by apply (pretty_N_char_int (N.pos p `mod` 10)), N.mod_lt.
    - rewrite <- Heq. by apply pretty_N_go_last. }
  assert (Hlit : py_int (pretty_N_go (N.pos p) "") = int_literal (pretty_N_go (N.pos p) "")).
  { unfold py_int. rewrite Hstrip, Heq.
    destruct (pretty_N_char d) as [[] [] [] [] [] [] [] []]; done. }
  unfold int_of_group. rewrite Hlit. unfold int_literal.
  rewrite int_digits_pretty_go by done. cbn [int_digits mbind option_bind].
  pose proof (count_digits_pretty_go (N.pos p) "") as Hcount.
  cbn [count_digits String.length] in Hcount.
  replace (count_digits (pretty_N_go (N.pos p) ""))
    with (Z.of_nat (String.length (pretty_N_go (N.pos p) ""))) by lia.
  case_decide as Hlen.
  - by apply Z.leb_le in Hlen as ->.
  - apply Z.leb_nle in Hlen. by rewrite Hlen.
Qed.

(** The searches skip digits. *)
Lemma search_skip_digit c s :
  digit_val c <> None ->
  search_age (String c s) = search_age s /\ search_range (String c s) = search_range s.
Proof.
  intros Hc. destruct c as [[] [] [] [] [] [] [] []]; done.
Qed.

Lemma search_skip_pretty_go x s :
  search_age (pretty_N_go x s) = search_age s /\
  search_range (pretty_N_go x s) = search_range s.
Proof.
  revert s. induction (N.lt_wf_0 x) as [x _ IH]; intros s.
  destruct (N.eq_0_gt_0_cases x) as [->|Hx]; [by rewrite pretty_N_go_0|].
  rewrite pretty_N_go_step by done.
  destruct (IH (x `div` 10)%N (N.div_lt x 10 Hx eq_refl)
              (String (pretty_N_char (x `mod` 10)) s)) as [-> ->].
  apply search_skip_digit.
  destruct (pretty_N_char_digit (x `mod` 10)) as [-> _]; [by apply N.mod_lt|done].
Qed.

Lemma search_skip_pretty x r :
  search_age (pretty (Z.of_N x) +:+ r) = search_age r /\
  search_range (pretty (Z.of_N x) +:+ r) = search_range r.
Proof.
  destruct (pretty_of_N_cases x r) as [[-> _]|[-> _]]; [done|].
  apply search_skip_pretty_go.
Qed.

Lemma lstrip_pretty x r : lstrip (pretty (Z.of_N x) +:+ r) = pretty (Z.of_N x) +:+ r.
Proof.
  destruct (pretty_of_N_cases x r) as [[-> _]|[-> Hx]]; [done|].
  destruct (pretty_N_go_head x r Hx) as (d & s' & Hd & ->). cbn [lstrip].
  by destruct (pretty_N_char_digit d Hd) as [_ ->].
Qed.

(** The range pattern at the head of "between A and B". *)
Lemma match_range_here_between a b :
  match_range_here ("between " +:+ pretty (Z.of_N a) +:+ " and " +:+ pretty (Z.of_N b))
  = Some (pretty (Z.of_N a), pretty (Z.of_N b)).
Proof.
  set (D2 := pretty (Z.of_N b)).
  set (R1 := " and " +:+ D2).
  set (D1 := pretty (Z.of_N a) +:+ R1).
  unfold match_range_here.
  change (starts_with "between" ("between " +:+ D1)) with true. cbv iota.
  change (skip_spaces1 (drop_chars 7 ("between " +:+ D1))) with (Some (lstrip D1)).
  subst D1. rewrite lstrip_pretty. cbn [mbind option_bind].
  rewrite digits1_pretty by done. cbn [mbind option_bind snd fst].
  change (skip_spaces1 R1) with (Some (lstrip ("and " +:+ D2))).
  change (lstrip ("and " +:+ D2)) with ("and " +:+ D2). cbn [mbind option_bind].
  change (starts_with "and" ("and " +:+ D2)) with true. cbv iota.
  change (skip_spaces1 (drop_chars 3 ("and " +:+ D2))) with (Some (lstrip D2)).
  cbn [mbind option_bind].
  assert (digits1 (lstrip D2) = Some (D2, "")) as ->; [|done].
  subst D2. pose proof (lstrip_pretty b "") as Hl.
  pose proof (digits1_pretty b "" I) as Hd.
  rewrite string_app_nil_r in Hl, Hd. by rewrite Hl, Hd.
Qed.

Lemma search_age_unfold s :
  search_age s
  = match match_keyword_here ["over"; "above"; "under"; "below"; "exactly"] s with
    | Some m => Some m
    | None => match s with String _ s' => search_age s' | EmptyString => None end
    end.
Proof. by destruct s. Qed.

Lemma search_range_unfold s :
  search_range s
  = match match_range_here s with
    | Some m => Some m
    | None => match s with String _ s' => search_range s' | EmptyString => None end
    end.
Proof. by destruct s. Qed.

(** The age pattern at the head of "KEYWORD N". *)
Lemma match_keyword_here_text kw n :
  kw ∈ ["over"; "above"; "under"; "below"; "exactly"] ->
  match_keyword_here ["over"; "above"; "under"; "below"; "exactly"]
    (kw +:+ " " +:+ pretty (Z.of_N n))
  = Some (kw, pretty (Z.of_N n)).
Proof.
  intros Hkw. set (D := pretty (Z.of_N n)).
  assert (HD : forall k : string,
            (r ← Some (lstrip D); nd ← digits1 r; Some (k, fst nd))
            = Some (k, D)).
  { intros k. subst D. cbn [mbind option_bind].
    pose proof (lstrip_pretty n "") as Hl.
    pose proof (digits1_pretty n "" I) as Hd.
    rewrite string_app_nil_r in Hl, Hd. by rewrite Hl, Hd. }
  cbn [match_keyword_here].
  repeat (apply elem_of_cons in Hkw as [->|Hkw]);
    [| | | | |by apply elem_of_nil in Hkw];
    repeat match goal with
           | |- context [starts_with ?k ?t] =>
               first [change (starts_with k t) with true
                     |change (starts_with k t) with false]
           end; cbv iota;
    match goal with
    | |- context [skip_spaces1 (drop_chars ?n ?t)] =>
        change (skip_spaces1 (drop_chars n t)) with (Some (lstrip D))
    end; by rewrite HD.
Qed.

(** The regex fallback on "between A and B" keeps the two numbers in the
    order of the text, whatever they are; it raises when one of them has
    more digits than [int] reads. *)
Lemma regex_filters_between a b :
  regex_filters ("between " +:+ pretty (Z.of_N a) +:+ " and " +:+ pretty (Z.of_N b))
  = if decide ((Z.of_nat (String.length (pretty (Z.of_N a))) <= int_max_str_digits)%Z /\
               (Z.of_nat (String.length (pretty (Z.of_N b))) <= int_max_str_digits)%Z)
    then Ok [AgeRange (Z.of_N a) (Z.of_N b) "regex_fallback"]
    else Raise ValueError.
Proof.
  unfold regex_filters.
  rewrite search_range_unfold, match_range_here_between.
  assert (search_age ("between " +:+ pretty (Z.of_N a) +:+ " and " +:+ pretty (Z.of_N b))
          = None) as ->.
  { set (D2 := pretty (Z.of_N b)).
    change (search_age ("between " +:+ pretty (Z.of_N a) +:+ " and " +:+ D2))
      with (search_age (pretty (Z.of_N a) +:+ " and " +:+ D2)).
    rewrite (proj1 (search_skip_pretty a _)).
    change (search_age (" and " +:+ D2)) with (search_age D2).
    subst D2. rewrite <- (string_app_nil_r (pretty (Z.of_N b))).
    by rewrite (proj1 (search_skip_pretty b _)). }
  cbn [mbind result_bind]. rewrite !int_of_group_pretty.
  repeat case_decide; try done; tauto.
Qed.

(** The regex fallback on "KEYWORD N" gives one filter of value N:
    greater-than for "over" and "above", less-than for "under" and "below",
    and the operator "=" for "exactly"; it raises when N has more digits
    than [int] reads. *)
Lemma regex_filters_keyword kw n :
  kw ∈ ["over"; "above"; "under"; "below"; "exactly"] ->
  regex_filters (kw +:+ " " +:+ pretty (Z.of_N n))
  = if decide (Z.of_nat (String.length (pretty (Z.of_N n))) <= int_max_str_digits)%Z
    then Ok [AgeValue (if decide (kw ∈ ["over"; "above"]) then OpGt
                       else if decide (kw ∈ ["under"; "below"]) then OpLt else OpEq)
                      (Z.of_N n) "regex_fallback"]
    else Raise ValueError.
Proof.
  intros Hkw. unfold regex_filters.
  rewrite search_age_unfold, match_keyword_here_text by done.
  assert (search_range (kw +:+ " " +:+ pretty (Z.of_N n)) = None) as ->.
  { set (D := pretty (Z.of_N n)).
    assert (search_range D = None) as HD.
    { subst D. rewrite <- (string_app_nil_r (pretty (Z.of_N n))).
      by rewrite (proj2 (search_skip_pretty n _)). }
    repeat (apply elem_of_cons in Hkw as [->|Hkw]);
      [| | | | |by apply elem_of_nil in Hkw];
      match goal with
      | |- search_range ?t = None => change (search_range t) with (search_range D)
      end; exact HD. }
  rewrite int_of_group_pretty.
  case_decide; [|done]. cbn [mbind result_bind].
  repeat (apply elem_of_cons in Hkw as [->|Hkw]);
    [| | | | |by apply elem_of_nil in Hkw]; reflexivity.
Qed.

(** The decimal writing of a number from [10 ^ k] on has more than [k]
    digits. *)
Lemma pretty_N_go_length_ge x s :
  (String.length s <= String.length (pretty_N_go x s))%nat.
Proof.
  revert s. induction (N.lt_wf_0 x) as [x _ IH]; intros s.
  destruct (decide (0 < x)%N) as [Hx|Hx].
  - rewrite pretty_N_go_step by done.
    specialize (IH (x `div` 10)%N (N.div_lt x 10 Hx eq_refl)
                   (String (pretty_N_char (x `mod` 10)) s)).
    cbn [String.length] in IH. lia.
  - assert (x = 0%N) as -> by lia. by rewrite pretty_N_go_0.
Qed.

Lemma pretty_N_go_length_pow k x s :
  (10 ^ k <= x)%N ->
  (Z.of_N k + Z.of_nat (String.length s) < Z.of_nat (String.length (pretty_N_go x s)))%Z.
Proof.
  revert x s. induction k as [|k IH] using N.peano_ind; intros x s Hx.
  - change (10 ^ 0)%N with 1%N in Hx. rewrite pretty_N_go_step by lia.
    pose proof (pretty_N_go_length_ge (x `div` 10) (String (pretty_N_char (x `mod` 10)) s)) as Hge.
    cbn [String.length] in Hge. lia.
  - rewrite N.pow_succ_r' in Hx.
    assert (Hpos : (0 < 10 ^ k)%N) by (apply N.neq_0_lt_0, N.pow_nonzero; lia).
    rewrite pretty_N_go_step by lia.
    assert (Hdiv : (10 ^ k <= x `div` 10)%N) by (apply N.div_le_lower_bound; lia).
    specialize (IH _ (String (pretty_N_char (x `mod` 10)) s) Hdiv).
    cbn [String.length] in IH. lia.
Qed.

Lemma pretty_length_pow k x :
  (10 ^ k <= x)%N ->
  (Z.of_N k < Z.of_nat (String.length (pretty (Z.of_N x))))%Z.
Proof.
  intros Hx.
  assert (Hpos : (0 < 10 ^ k)%N) by (apply N.neq_0_lt_0, N.pow_nonzero; lia).
  destruct x as [|p]; [lia|].
  change (pretty (Z.of_N (N.pos p))) with (pretty_N_go (N.pos p) "").
  pose proof (pretty_N_go_length_pow k (N.pos p) "" Hx) as Hlen.
  cbn [String.length] in Hlen. lia.
Qed.

(** X24: when the context analysis finds nothing, a text "between A and B"
    gives the range filter min = A, max = B, in the order of the text,
    provided neither numeral has more than 4300 digits; when one has, the
    unguarded [int] raises [ValueError]. *)
Theorem extract_age_filters_between_text_order doc numbers a b :
  doc_text doc = "between " +:+ pretty (Z.of_N a) +:+ " and " +:+ pretty (Z.of_N b) ->
  context_filters numbers numbers = [] ->
  ((Z.of_nat (String.length (pretty (Z.of_N a))) <= int_max_str_digits)%Z ->
   (Z.of_nat (String.length (pretty (Z.of_N b))) <= int_max_str_digits)%Z ->
   _extract_age_filters_with_spacy doc numbers
   = Ok [AgeRange (Z.of_N a) (Z.of_N b) "regex_fallback"]) /\
  ((int_max_str_digits < Z.of_nat (String.length (pretty (Z.of_N a))))%Z \/
   (int_max_str_digits < Z.of_nat (String.length (pretty (Z.of_N b))))%Z ->
   _extract_age_filters_with_spacy doc numbers = Raise ValueError).
Proof.
  intros Htext Hctx. unfold _extract_age_filters_with_spacy.
  rewrite Hctx, Htext, regex_filters_between.
  split; [intros Ha Hb|intros Hab]; case_decide; (done || lia).
Qed.

(** X25: when the context analysis finds nothing, a text "KEYWORD N" gives
    one filter of value N: greater-than for "over" and "above", less-than
    for "under" and "below", the operator "=" for "exactly", provided the
    numeral has at most 4300 digits; when it has more, the unguarded [int]
    raises [ValueError]. *)
Theorem extract_age_filters_keyword_fallback doc numbers kw n :
  kw ∈ ["over"; "above"; "under"; "below"; "exactly"] ->
  doc_text doc = kw +:+ " " +:+ pretty (Z.of_N n) ->
  context_filters numbers numbers = [] ->
  ((Z.of_nat (String.length (pretty (Z.of_N n))) <= int_max_str_digits)%Z ->
   _extract_age_filters_with_spacy doc numbers
   = Ok [AgeValue (if decide (kw ∈ ["over"; "above"]) then OpGt
                   else if decide (kw ∈ ["under"; "below"]) then OpLt else OpEq)
                  (Z.of_N n) "regex_fallback"]) /\
  ((int_max_str_digits < Z.of_nat (String.length (pretty (Z.of_N n))))%Z ->
   _extract_age_filters_with_spacy doc numbers = Raise ValueError).
Proof.
  intros Hkw Htext Hctx. unfold _extract_age_filters_with_spacy.
  rewrite Hctx, Htext, regex_filters_keyword by done.
  split; intros Hn; case_decide; (done || lia).
Qed.

(* ===================================================================== *)
(** ** When the extractor returns *)
(* ===================================================================== *)

(** A group of [(\d+)] is a run of digits, no longer than the text, and so
    is what follows it. *)
Lemma digits_run_group s :
  digits_run (fst (digits_run s)) = (fst (digits_run s), "") /\
  (String.length (fst (digits_run s)) <= String.length s)%nat /\
  (String.length (snd (digits_run s)) <= String.length s)%nat.
Proof.
  induction s as [|c s (IHrun & IHlen & IHrest)]; [done|]. cbn [digits_run].
  destruct (digit_val c) eqn:Hc; [|repeat split; cbn; lia].
  destruct (digits_run s) as [g r]. cbn [fst snd] in *. cbn [digits_run String.length].
  rewrite Hc, IHrun. repeat split; lia.
Qed.

Lemma digits1_group s g r :
  digits1 s = Some (g, r) ->
  g <> "" /\ digits_run g = (g, "") /\
  (String.length g <= String.length s)%nat /\
  (String.length r <= String.length s)%nat.
Proof.
  unfold digits1. destruct (digits_run_group s) as (Hrun & Hlen & Hrest).
  destruct (digits_run s) as [[|c g'] r']; [done|]. cbn [fst snd] in *.
  by intros [= <- <-].
Qed.

Lemma lstrip_length s : (String.length (lstrip s) <= String.length s)%nat.
Proof.
  induction s as [|c s IH]; [done|]. cbn [lstrip].
  destruct (py_isspace c); cbn [String.length]; lia.
Qed.

Lemma skip_spaces1_length s r :
  skip_spaces1 s = Some r -> (String.length r <= String.length s)%nat.
Proof.
  destruct s as [|c s]; [done|]. cbn [skip_spaces1].
  destruct (py_isspace c); [|done]. intros [= <-].
  pose proof (lstrip_length s). cbn [String.length]. lia.
Qed.

Lemma drop_chars_length n s : (String.length (drop_chars n s) <= String.length s)%nat.
Proof.
  revert s. induction n as [|n IH]; intros [|c s]; cbn [drop_chars String.length]; try lia.
  specialize (IH s). lia.
Qed.

Lemma match_keyword_here_group kws s kw g :
  match_keyword_here kws s = Some (kw, g) ->
  g <> "" /\ digits_run g = (g, "") /\ (String.length g <= String.length s)%nat.
Proof.
  induction kws as [|k kws IH]; [done|]. cbn [match_keyword_here].
  destruct (starts_with k s); [|apply IH].
  destruct (skip_spaces1 _) as [r|] eqn:Hskip; [|apply IH]. cbn [mbind option_bind].
  destruct (digits1 r) as [[g' r']|] eqn:Hd; [|apply IH]. cbn [mbind option_bind fst].
  intros [= <- <-]. apply digits1_group in Hd as (Hne & Hrun & Hlen & _).
  apply skip_spaces1_length in Hskip.
  pose proof (drop_chars_length (String.length k) s). repeat split; (done || lia).
Qed.

Lemma search_age_group s kw g :
  search_age s = Some (kw, g) ->
  g <> "" /\ digits_run g = (g, "") /\ (String.length g <= String.length s)%nat.
Proof.
  induction s as [|c s IH].
  - cbn [search_age]. destruct (match_keyword_here _ _) as [[kw' g']|] eqn:Hm; [|done].
    intros [= <- <-]. by eapply match_keyword_here_group.
  - cbn [search_age]. destruct (match_keyword_here _ _) as [[kw' g']|] eqn:Hm.
    + intros [= <- <-]. by eapply match_keyword_here_group.
    + intros Hs. destruct (IH Hs) as (Hne & Hrun & Hlen). cbn [String.length].
      repeat split; (done || lia).
Qed.

Lemma match_range_here_group s g1 g2 :
  match_range_here s = Some (g1, g2) ->
  (g1 <> "" /\ digits_run g1 = (g1, "") /\ (String.length g1 <= String.length s)%nat) /\
  (g2 <> "" /\ digits_run g2 = (g2, "") /\ (String.length g2 <= String.length s)%nat).
Proof.
  unfold match_range_here. destruct (starts_with "between" s); [|done].
  destruct (skip_spaces1 (drop_chars 7 s)) as [r1|] eqn:Hs1; [|done].
  cbn [mbind option_bind].
  destruct (digits1 r1) as [[a ra]|] eqn:Hd1; [|done]. cbn [mbind option_bind snd fst].
  destruct (skip_spaces1 ra) as [r2|] eqn:Hs2; [|done]. cbn [mbind option_bind].
  destruct (starts_with "and" r2); [|done].
  destruct (skip_spaces1 (drop_chars 3 r2)) as [r3|] eqn:Hs3; [|done].
  cbn [mbind option_bind].
  destruct (digits1 r3) as [[b rb]|] eqn:Hd2; [|done]. cbn [mbind option_bind fst].
  intros [= <- <-].
  pose proof (digits1_group _ _ _ Hd1) as (Hne1 & Hrun1 & Hlen1 & Hra).
  pose proof (digits1_group _ _ _ Hd2) as (Hne2 & Hrun2 & Hlen2 & _).
  apply skip_spaces1_length in Hs1, Hs2, Hs3.
  pose proof (drop_chars_length 7 s). pose proof (drop_chars_length 3 r2).
  repeat split; try done; lia.
Qed.

Lemma search_range_group s g1 g2 :
  search_range s = Some (g1, g2) ->
  (g1 <> "" /\ digits_run g1 = (g1, "") /\ (String.length g1 <= String.length s)%nat) /\
  (g2 <> "" /\ digits_run g2 = (g2, "") /\ (String.length g2 <= String.length s)%nat).
Proof.
  induction s as [|c s IH].
  - cbn [search_range]. destruct (match_range_here _) as [[a b]|] eqn:Hm; [|done].
    intros [= <- <-]. by eapply match_range_here_group.
  - cbn [search_range]. destruct (match_range_here _) as [[a b]|] eqn:Hm.
    + intros [= <- <-]. by eapply match_range_here_group.
    + intros Hs. destruct (IH Hs) as ((Hne1 & Hrun1 & Hlen1) & Hne2 & Hrun2 & Hlen2).
      cbn [String.length]. repeat split; (done || lia).
Qed.

(** [int] reads a run of digits that is within its limit. *)
Lemma int_digits_run g acc b :
  digits_run g = (g, "") -> (g <> "" \/ b = true) ->
  is_Some (int_digits acc b g).
Proof.
  revert acc b. induction g as [|c g IH]; intros acc b Hrun Hne.
  - destruct Hne as [Hne| ->]; [done|]. by eexists.
  - cbn [digits_run] in Hrun. cbn [int_digits].
    destruct (digit_val c) as [d|]; [|done].
    destruct (digits_run g) as [g' r] eqn:Hg. injection Hrun as -> ->.
    apply IH; [done|by right].
Qed.

Lemma count_digits_run g :
  digits_run g = (g, "") -> count_digits g = Z.of_nat (String.length g).
Proof.
  induction g as [|c g IH]; [done|]. cbn [digits_run count_digits String.length].
  destruct (digit_val c) as [d|]; [|done].
  destruct (digits_run g) as [g' r] eqn:Hg. intros [= -> ->].
  rewrite IH by done. lia.
Qed.

Lemma int_lstrip_rev_run g acc :
  digits_run g = (g, "") ->
  int_lstrip acc = acc ->
  int_lstrip (String.rev_app g acc) = String.rev_app g acc.
Proof.
  revert acc. induction g as [|c g IH]; intros acc Hrun Hacc; [done|].
  cbn [digits_run] in Hrun. cbn [String.rev_app].
  destruct (digit_val c) as [d|] eqn:Hc; [|done].
  destruct (digits_run g) as [g' r] eqn:Hg. injection Hrun as -> ->.
  apply IH; [done|]. cbn [int_lstrip].
  assert (int_isspace c = false) as ->; [|done].
  destruct c as [[] [] [] [] [] [] [] []]; done.
Qed.

Lemma py_int_run g :
  g <> "" -> digits_run g = (g, "") ->
  (Z.of_nat (String.length g) <= int_max_str_digits)%Z ->
  is_Some (py_int g).
Proof.
  intros Hne Hrun Hlen.
  assert (Hstrip : int_strip g = g).
  { unfold int_strip.
    assert (int_lstrip g = g) as ->.
    { destruct g as [|c g]; [done|]. cbn [digits_run] in Hrun. cbn [int_lstrip].
      destruct (digit_val c) eqn:Hc; [|done].
      assert (int_isspace c = false) as ->; [|done].
      destruct c as [[] [] [] [] [] [] [] []]; done. }
    unfold String.rev at 2. rewrite int_lstrip_rev_run by done.
    unfold String.rev. by rewrite rev_app_rev_app, string_app_nil_r. }
  assert (Hlit : py_int g = int_literal g).
  { unfold py_int. rewrite Hstrip. destruct g as [|c g]; [done|].
    cbn [digits_run] in Hrun. destruct (digit_val c) eqn:Hc; [|done].
    destruct c as [[] [] [] [] [] [] [] []]; done. }
  rewrite Hlit. unfold int_literal.
  destruct (int_digits_run g 0 false Hrun (or_introl Hne)) as [n ->].
  cbn [mbind option_bind]. rewrite count_digits_run by done.
  apply Z.leb_le in Hlen as ->. by eexists.
Qed.

Lemma int_of_group_run g :
  g <> "" -> digits_run g = (g, "") ->
  (Z.of_nat (String.length g) <= int_max_str_digits)%Z ->
  exists n, int_of_group g = Ok n.
Proof.
  intros Hne Hrun Hlen. unfold int_of_group.
  destruct (py_int_run g Hne Hrun Hlen) as [n ->]. by eexists.
Qed.

(** The regex fallback raises nothing but [ValueError], and returns on a
    text of at most 4300 characters. *)
Lemma regex_filters_raises s e : regex_filters s = Raise e -> e = ValueError.
Proof.
  assert (Hint : forall g e', int_of_group g = Raise e' -> e' = ValueError).
  { intros g e'. unfold int_of_group. destruct (py_int g); [done|]. by intros [= <-]. }
  unfold regex_filters, mbind, result_bind.
  destruct (search_age s) as [[kw g]|].
  - destruct (int_of_group g) as [age|e0] eqn:Hg; [|intros [= <-]; by eapply Hint].
    destruct (search_range s) as [[g1 g2]|]; [|done].
    destruct (int_of_group g1) as [lo|e1] eqn:Hg1; [|intros [= <-]; by eapply Hint].
    destruct (int_of_group g2) as [hi|e2] eqn:Hg2; [done|intros [= <-]; by eapply Hint].
  - destruct (search_range s) as [[g1 g2]|]; [|done].
    destruct (int_of_group g1) as [lo|e1] eqn:Hg1; [|intros [= <-]; by eapply Hint].
    destruct (int_of_group g2) as [hi|e2] eqn:Hg2; [done|intros [= <-]; by eapply Hint].
Qed.

Lemma regex_filters_returns s :
  (Z.of_nat (String.length s) <= int_max_str_digits)%Z ->
  exists fs, regex_filters s = Ok fs.
Proof.
  intros Hlen. unfold regex_filters, mbind, result_bind.
  assert (Hage : exists fs0,
            match search_age s with
            | Some (group1, group2) =>
                match int_of_group group2 with
                | Ok age => Ok [AgeValue (operator_of_keyword group1) age "regex_fallback"]
                | Raise e => Raise e
                end
            | None => Ok []
            end = Ok fs0).
  { destruct (search_age s) as [[kw g]|] eqn:Hs; [|by eexists].
    apply search_age_group in Hs as (Hne & Hrun & Hg).
    destruct (int_of_group_run g Hne Hrun) as [n ->]; [lia|]. by eexists. }
  destruct Hage as [fs0 ->].
  destruct (search_range s) as [[g1 g2]|] eqn:Hs; [|by eexists].
  apply search_range_group in Hs as ((Hne1 & Hrun1 & Hlen1) & Hne2 & Hrun2 & Hlen2).
  destruct (int_of_group_run g1 Hne1 Hrun1) as [lo ->]; [lia|].
  destruct (int_of_group_run g2 Hne2 Hrun2) as [hi ->]; [lia|]. by eexists.
Qed.

(** X28: the extractor raises nothing but [ValueError], and only when the
    context analysis found no age filter and the text of the document has
    more than 4300 characters; on a document of at most 4300 characters it
    returns. *)
Theorem extract_entities_returns nlp explain query :
  let doc := nlp (lower query) in
  let numbers := _extract_numbers_with_context doc in
  ((Z.of_nat (String.length (doc_text doc)) <= int_max_str_digits)%Z ->
   exists e, extract_entities nlp explain query = Ok e) /\
  (context_filters numbers numbers <> [] ->
   exists e, extract_entities nlp explain query = Ok e) /\
  (forall err, extract_entities nlp explain query = Raise err ->
     err = ValueError /\ context_filters numbers numbers = [] /\
     (int_max_str_digits < Z.of_nat (String.length (doc_text doc)))%Z).
Proof.
  intros doc numbers. unfold extract_entities, _extract_age_filters_with_spacy.
  fold doc. fold numbers. split; [|split].
  - intros Hlen. destruct (context_filters numbers numbers) as [|f fs].
    + destruct (regex_filters_returns _ Hlen) as [fs ->]. by eexists.
    + by eexists.
  - intros Hctx. destruct (context_filters numbers numbers) as [|f fs]; [done|by eexists].
  - intros err. destruct (context_filters numbers numbers) as [|f fs]; [|done].
    destruct (regex_filters (doc_text doc)) as [fs|e0] eqn:Hre; [done|].
    cbn [mbind result_bind]. intros [= <-]. split; [by eapply regex_filters_raises|].
    split; [done|].
    destruct (decide (Z.of_nat (String.length (doc_text doc)) <= int_max_str_digits)%Z)
      as [Hle|Hgt]; [|lia].
    destruct (regex_filters_returns _ Hle) as [fs Hfs]. congruence.
Qed.

(* ===================================================================== *)
(** ** The stages composed *)
(* ===================================================================== *)

(** X2: the page count the fetch reports, against the calls it made.  The
    bundle of the result is the payload of the last call.  When that page
    has no next link, the loop ended by [break] and the count is the number
    of calls.  When it has one, the loop ended because the bound was
    reached: [max_pages] calls were made and the count is one more. *)
Theorem fetch_reported_page_count fhir_base_url http_get query max_pages r lg k :
  (1 <= max_pages)%Z ->
  fetch_real_fhir_data fhir_base_url http_get query max_pages = Some (r, lg) ->
  res_pages_fetched r = Some k ->
  exists req next_url,
    last lg = Some req /\
    get_json http_get (pred (length lg)) req = Ok (bundle r) /\
    _get_next_link (bundle r) = Ok next_url /\
    (py_truthy next_url = false -> k = Z.of_nat (length lg)) /\
    (py_truthy next_url = true ->
     Z.of_nat (length lg) = max_pages /\ k = (max_pages + 1)%Z).
Proof.
  intros Hmp Hfetch Hk.
  destruct (fetch_page_count _ _ _ _ _ _ _ Hmp Hfetch Hk)
    as (req & nxt & Hreq & Hget & Hnext & Hcount).
  exists req, nxt. do 3 (split; [done|]).
  destruct (py_truthy nxt); split; (done || by intros _).
Qed.




(** X27: the legacy intent detection does not depend on the case of the text,
    answers one of the three intents, and on a text without search word
    and without "count" it is the phrase fallback of the newer detection. *)
Theorem determine_intent_legacy query :
  _determine_intent query = _determine_intent (lower query) /\
  _determine_intent query ∈ ["search"; "count"; "aggregate"] /\
  (any_in ["show"; "list"; "find"; "get"; "display"] (lower query) = false ->
   contains "count" (lower query) = false ->
   _determine_intent query = intent_of_phrases (lower query)).
Proof.
  unfold _determine_intent. rewrite lower_idemp. split; [done|]. split.
  - repeat case_match; apply list_elem_of_In; cbn; tauto.
  - intros -> Hcount. unfold intent_of_phrases, any_in. cbn [existsb].
    by rewrite Hcount.
Qed.

(* ===================================================================== *)
(** ** Instances *)
(* ===================================================================== *)

(** The bound of three pages on the collection of five. *)
Lemma fetch_terminates_within_max_pages_witness :
  (1 <= 3)%Z /\
  exists r lg,
    fetch_real_fhir_data base_url five_pages query_over_50 3 = Some (r, lg) /\
    (Z.of_nat (length lg) <= 3)%Z.
Proof.
  split; [lia|].
  apply (fetch_terminates_within_max_pages base_url five_pages query_over_50 3). lia.
Defined.

(** Five pages read under a bound of seven: the last page has no next
    link and the count is the number of calls.  Under a bound of three:
    the last page read has a next link, three calls were made and the
    count is four. *)
Lemma fetch_reported_page_count_witness :
  (exists r lg,
     fetch_real_fhir_data base_url five_pages query_over_50 7 = Some (r, lg) /\
     _get_next_link (bundle r) = Ok PNone /\
     res_pages_fetched r = Some 5%Z /\ Z.of_nat (length lg) = 5%Z) /\
  (exists r lg,
     fetch_real_fhir_data base_url five_pages query_over_50 3 = Some (r, lg) /\
     _get_next_link (bundle r) = Ok (PStr (page_url 4)) /\
     res_pages_fetched r = Some 4%Z /\ Z.of_nat (length lg) = 3%Z).
Proof.
  split.
  - destruct (fetch_real_fhir_data base_url five_pages query_over_50 7)
      as [[r lg]|] eqn:Hf; [|vm_compute in Hf; discriminate].
    assert (Hk : res_pages_fetched r = Some 5%Z)
      by (vm_compute in Hf; injection Hf as <- _; reflexivity).
    assert (Hn : _get_next_link (bundle r) = Ok PNone)
      by (vm_compute in Hf; injection Hf as <- _; reflexivity).
    exists r, lg. split; [reflexivity|]. split; [exact Hn|]. split; [exact Hk|].
    destruct (fetch_reported_page_count base_url five_pages query_over_50 7 r lg 5
                ltac:(lia) Hf Hk) as (req & nxt & _ & _ & Hnext & Hbreak & _).
    rewrite Hn in Hnext. injection Hnext as <-. symmetry. by apply Hbreak.
  - destruct (fetch_real_fhir_data base_url five_pages query_over_50 3)
      as [[r lg]|] eqn:Hf; [|vm_compute in Hf; discriminate].
    assert (Hk : res_pages_fetched r = Some 4%Z)
      by (vm_compute in Hf; injection Hf as <- _; reflexivity).
    assert (Hn : _get_next_link (bundle r) = Ok (PStr (page_url 4)))
      by (vm_compute in Hf; injection Hf as <- _; reflexivity).
    exists r, lg. split; [reflexivity|]. split; [exact Hn|]. split; [exact Hk|].
    destruct (fetch_reported_page_count base_url five_pages query_over_50 3 r lg 4
                ltac:(lia) Hf Hk) as (req & nxt & _ & _ & Hnext & _ & Hbound).
    rewrite Hn in Hnext. injection Hnext as <-. by apply Hbound.
Defined.

(** No page budget: no request. *)
Lemma fetch_without_page_budget_witness :
  (0 <= 0)%Z /\
  fetch_real_fhir_data base_url five_pages query_over_50 0
  = Some (_generate_fallback_results query_over_50, []).
Proof.
  split; [lia|]. apply fetch_without_page_budget. lia.
Defined.

(** A server that answers with one patient. *)
Lemma fetch_single_resource_witness :
  exists params,
    build_params query_over_50 = Ok params /\
    fetch_real_fhir_data base_url single_patient query_over_50 3
    = Some ({| total := PInt 1;
               resources := [PDict patient_7];
               bundle := PDict [("resourceType", PStr "Bundle");
                                ("entry", PList [PDict [("resource", PDict patient_7)]])];
               res_pages_fetched := None;
               error := None |},
            [{| req_url := PStr "https://hapi.fhir.org/baseR4/Patient";
                req_params := Some params |}]).
Proof.
  destruct (build_params query_over_50) as [params|e] eqn:Hp;
    [|vm_compute in Hp; discriminate].
  exists params. split; [reflexivity|].
  apply (fetch_single_resource base_url single_patient query_over_50 3 params 200 patient_7);
    [lia|exact Hp|reflexivity|reflexivity|cbn; discriminate].
Defined.

(** The three requests made on the collection of five pages. *)
Lemma fetch_only_first_request_has_params_witness :
  exists params r lg,
    build_params query_over_50 = Ok params /\
    fetch_real_fhir_data base_url five_pages query_over_50 3 = Some (r, lg) /\
    lg !! 0%nat = Some {| req_url := PStr "https://hapi.fhir.org/baseR4/Patient";
                          req_params := Some params |} /\
    req_params <$> lg !! 1%nat = Some None.
Proof.
  destruct (build_params query_over_50) as [params|e] eqn:Hp;
    [|vm_compute in Hp; discriminate].
  destruct (fetch_real_fhir_data base_url five_pages query_over_50 3)
    as [[r lg]|] eqn:Hf; [|vm_compute in Hf; discriminate].
  exists params, r, lg. split; [reflexivity|]. split; [reflexivity|].
  pose proof (fetch_only_first_request_has_params base_url five_pages query_over_50 3
                params r lg Hp Hf) as Hshape.
  assert (Hlen : exists r0 r1 r2, lg = [r0; r1; r2])
    by (vm_compute in Hf; injection Hf as _ <-; by eexists _, _, _).
  destruct Hlen as (r0 & r1 & r2 & ->). split.
  - cbn. f_equal. exact (Hshape 0%nat r0 eq_refl).
  - cbn. f_equal. exact (Hshape 1%nat r1 eq_refl).
Defined.

(** "exactly 50" followed by "over 60": no birth-date bound. *)
Lemma build_exact_age_sets_no_birthdate_witness :
  age_filters ents_exactly_50
  = AgeValue OpEq 50 "regex_fallback" :: [AgeValue OpGt 60 "spacy_context"] /\
  parameters (build_fhir_query clock_2024_jan ents_exactly_50) !! "birthdate" = None.
Proof.
  split; [reflexivity|].
  by apply (build_exact_age_sets_no_birthdate clock_2024_jan ents_exactly_50 50
              "regex_fallback" [AgeValue OpGt 60 "spacy_context"]).
Defined.

(** The condition asthma of "patients with asthma". *)
Lemma extract_conditions_from_dictionary_witness :
  condition_of "asthma" (mkMapping "195967001" "http://snomed.info/sct" "Asthma")
    "spacy_lemma" ∈ _extract_conditions_with_spacy doc_asthma /\
  exists m,
    assoc_get "asthma" condition_mappings = Some m /\
    m_code m = "195967001".
Proof.
  assert (Hin : condition_of "asthma"
                  (mkMapping "195967001" "http://snomed.info/sct" "Asthma") "spacy_lemma"
                ∈ _extract_conditions_with_spacy doc_asthma)
    by (apply list_elem_of_In; vm_compute; auto).
  split; [exact Hin|].
  destruct (extract_conditions_from_dictionary doc_asthma _ Hin)
    as (m & Hm & Hcode & _).
  exists m. split; [exact Hm|]. symmetry. exact Hcode.
Defined.

(** Heart disease in "patients with heart disease and asthma". *)
Lemma extract_conditions_multiword_shadows_witness :
  str_in "heart" (doc_lemmas doc_heart_asthma) = true /\
  str_in "disease" (doc_lemmas doc_heart_asthma) = true /\
  ents doc_heart_asthma = [] /\
  "heart disease" ∈ ["diabetes"; "diabetic"; "hypertension"; "heart disease"] /\
  "56265001" ∈ ["44054006"; "38341003"; "56265001"].
Proof.
  split; [reflexivity|]. split; [reflexivity|]. split; [reflexivity|].
  apply (extract_conditions_multiword_shadows doc_heart_asthma
           (condition_of "heart disease"
              (mkMapping "56265001" "http://snomed.info/sct" "Heart disease")
              "spacy_lemma_multiword")); try reflexivity.
  apply list_elem_of_In; vm_compute; auto.
Defined.

(** The token "patients" of "patients with heart disease and asthma". *)
Lemma extract_conditions_multiword_anywhere_witness :
  tok "patients" "patient" "NOUN" false ∈ doc_tokens doc_heart_asthma /\
  "56265001" ∈ map code (_extract_conditions_with_spacy doc_heart_asthma).
Proof.
  assert (Hin : tok "patients" "patient" "NOUN" false ∈ doc_tokens doc_heart_asthma)
    by (apply list_elem_of_In; cbn; auto).
  split; [exact Hin|].
  apply (extract_conditions_multiword_anywhere doc_heart_asthma
           (tok "patients" "patient" "NOUN" false)); try reflexivity. exact Hin.
Defined.

(** The token "asthma" of "patients with asthma". *)
Lemma extract_conditions_single_word_witness :
  tok "asthma" "asthma" "NOUN" false ∈ doc_tokens doc_asthma /\
  exists m,
    (assoc_get "asthma" condition_mappings = Some m \/
     assoc_get "asthma" condition_mappings = Some m) /\
    m_code m ∈ map code (_extract_conditions_with_spacy doc_asthma).
Proof.
  assert (Hin : tok "asthma" "asthma" "NOUN" false ∈ doc_tokens doc_asthma)
    by (apply list_elem_of_In; cbn; auto).
  split; [exact Hin|].
  apply (extract_conditions_single_word doc_asthma (tok "asthma" "asthma" "NOUN" false)
           "asthma"); [reflexivity|exact Hin| |by left].
  apply list_elem_of_In; cbn; auto.
Defined.

(** The mention 5 of "between 5 and 0". *)
Lemma extract_numbers_context_window_witness :
  exists words,
    words = ["between"; "and"; "0"] /\
    join " " words = "between and 0" /\
    (length words <= 4)%nat.
Proof.
  assert (Hin : {| value := "5"; numeric_value := Some 5%Z; context := "between and 0";
                   position := 1; dependencies := [] |}
                ∈ _extract_numbers_with_context doc_between_5_0)
    by (apply list_elem_of_In; vm_compute; auto).
  destruct (extract_numbers_context_window doc_between_5_0 _ Hin)
    as (words & Hwords & Hctx & Hlen).
  exists words. split; [exact Hwords|]. split; [symmetry; exact Hctx|exact Hlen].
Defined.

(** The range of "between 45 and 30". *)
Lemma extract_age_filters_sound_witness :
  _extract_age_filters_with_spacy doc_between_45_30
    (_extract_numbers_with_context doc_between_45_30)
  = Ok [AgeRange 30 45 "spacy_context_range"] /\
  (30 <= 45)%Z.
Proof.
  assert (Hfs : _extract_age_filters_with_spacy doc_between_45_30
                  (_extract_numbers_with_context doc_between_45_30)
                = Ok [AgeRange 30 45 "spacy_context_range"]) by reflexivity.
  split; [exact Hfs|].
  destruct (extract_age_filters_sound doc_between_45_30 _ _
              (AgeRange 30 45 "spacy_context_range") Hfs)
    as [[_ Hm]|(ni & nv & _ & _ & _ & _ & _ & Hle & _)];
    [by left|discriminate Hm|exact Hle].
Defined.

(** The mention 50 of "female patients over 50". *)
Lemma extract_age_filters_cue_witness :
  exists fs,
    _extract_age_filters_with_spacy doc_female_over_50
      (_extract_numbers_with_context doc_female_over_50) = Ok fs /\
    AgeValue OpGt 50 "spacy_context" ∈ fs.
Proof.
  apply (extract_age_filters_cue doc_female_over_50
           (_extract_numbers_with_context doc_female_over_50)
           {| value := "50"; numeric_value := Some 50%Z; context := "patients over";
              position := 3; dependencies := [] |} 50);
    [apply list_elem_of_In; vm_compute; auto|reflexivity|discriminate|reflexivity].
Defined.

(** "between 5 and 0", and "between 5 and B" for B of 4301 digits. *)
Lemma extract_age_filters_between_text_order_witness :
  doc_text doc_between_5_0 = "between " +:+ pretty (Z.of_N 5) +:+ " and " +:+ pretty (Z.of_N 0) /\
  _extract_age_filters_with_spacy doc_between_5_0
    (_extract_numbers_with_context doc_between_5_0)
  = Ok [AgeRange 5 0 "regex_fallback"] /\
  _extract_age_filters_with_spacy
    {| doc_tokens := [];
       doc_text := "between " +:+ pretty (Z.of_N 5) +:+ " and "
                   +:+ pretty (Z.of_N (10 ^ 4300));
       ents := [] |} []
  = Raise ValueError.
Proof.
  split; [reflexivity|]. split.
  - apply (extract_age_filters_between_text_order doc_between_5_0
             (_extract_numbers_with_context doc_between_5_0) 5 0);
      [reflexivity|reflexivity|by vm_compute|by vm_compute].
  - eapply (extract_age_filters_between_text_order _ [] 5 (10 ^ 4300));
      [reflexivity|reflexivity|].
    right. apply (pretty_length_pow 4300). apply N.le_refl.
Defined.

(** "exactly 50", and "over N" for N of 4301 digits. *)
Lemma extract_age_filters_keyword_fallback_witness :
  doc_text doc_exactly_50 = "exactly" +:+ " " +:+ pretty (Z.of_N 50) /\
  _extract_age_filters_with_spacy doc_exactly_50
    (_extract_numbers_with_context doc_exactly_50)
  = Ok [AgeValue OpEq 50 "regex_fallback"] /\
  _extract_age_filters_with_spacy
    {| doc_tokens := [];
       doc_text := "over" +:+ " " +:+ pretty (Z.of_N (10 ^ 4300));
       ents := [] |} []
  = Raise ValueError.
Proof.
  split; [reflexivity|]. split.
  - rewrite (proj1 (extract_age_filters_keyword_fallback doc_exactly_50
                      (_extract_numbers_with_context doc_exactly_50) "exactly" 50
                      ltac:(apply list_elem_of_In; cbn; tauto) eq_refl eq_refl));
      [reflexivity|by vm_compute].
  - eapply (extract_age_filters_keyword_fallback _ [] "over" (10 ^ 4300));
      [apply list_elem_of_In; cbn; tauto|reflexivity|reflexivity|].
    apply (pretty_length_pow 4300). apply N.le_refl.
Defined.


(** "female patients over 50" is extracted; a document whose text is "over"
    and a numeral of 4301 digits, and in which the annotator marks no
    number, makes the extractor raise. *)
Lemma extract_entities_returns_witness :
  (exists e,
     extract_entities (fun _ => doc_female_over_50) (fun _ => None)
       "Female patients over 50" = Ok e) /\
  extract_entities
    (fun _ => {| doc_tokens := [];
                 doc_text := "over" +:+ " " +:+ pretty (Z.of_N (10 ^ 4300));
                 ents := [] |})
    (fun _ => None) "over N" = Raise ValueError /\
  (int_max_str_digits
   < Z.of_nat (String.length ("over" +:+ " " +:+ pretty (Z.of_N (10 ^ 4300)))))%Z.
Proof.
  split.
  - apply (extract_entities_returns (fun _ => doc_female_over_50) (fun _ => None)
             "Female patients over 50"). by vm_compute.
  - assert (Hraise : extract_entities
              (fun _ => {| doc_tokens := [];
                           doc_text := "over" +:+ " " +:+ pretty (Z.of_N (10 ^ 4300));
                           ents := [] |})
              (fun _ => None) "over N" = Raise ValueError).
    { unfold extract_entities, _extract_age_filters_with_spacy.
      change (context_filters _ _) with (@nil AgeFilter). cbv iota.
      cbn [doc_text].
      rewrite regex_filters_keyword by (apply list_elem_of_In; cbn; tauto).
      pose proof (pretty_length_pow 4300 (10 ^ 4300) (N.le_refl _)) as Hlen.
      case_decide as Hle; [|reflexivity].
      unfold int_max_str_digits in Hle. lia. }
    split; [exact Hraise|].
    by destruct (proj2 (proj2 (extract_entities_returns _ _ _)) _ Hraise) as (_ & _ & Hlen).
Defined.
